(** * buncargo: the config loader ([src/loader.ts])

    A shallow embedding of the loader module: the upward search for a config
    file ([findConfigFile]), the module-level cache slot ([cachedEnv]) and
    the three operations on it ([loadDevEnv], [getDevEnv],
    [clearDevEnvCache]).

    The module is effectful: it probes the filesystem, imports a module,
    calls a factory and mutates one module-level variable.  All of this is
    modelled by a small monad that threads the module state, records every
    effect in a trace and carries thrown exceptions. *)

From Stdlib Require Import String Ascii List Bool Arith ZArith Lia.
Import ListNotations.
Open Scope string_scope.
Open Scope list_scope.

Set Implicit Arguments.

(** ** JavaScript values, as far as the loader inspects them *)

(** The default export of a config module is untyped at run time.  The
    loader only tests truthiness of two of its properties, so the value
    model keeps the primitives that are falsy, their truthy siblings, and
    objects as property lists. *)
#[warnings="-register-all"]
Inductive JsValue : Type :=
| JsUndefined
| JsNull
| JsBool (b : bool)
| JsNumber (n : Z)
| JsNaN
| JsString (s : string)
| JsObject (props : list (string * JsValue)).

(** ToBoolean: [undefined], [null], [false], [0], [NaN] and the empty string
    are falsy; everything else, every object included, is truthy. *)
Definition truthy (v : JsValue) : bool :=
  match v with
  | JsUndefined => false
  | JsNull => false
  | JsBool b => b
  | JsNumber n => negb (Z.eqb n 0)
  | JsNaN => false
  | JsString s => negb (String.eqb s "")
  | JsObject _ => true
  end.

Fixpoint lookup_prop (key : string) (props : list (string * JsValue)) : JsValue :=
  match props with
  | [] => JsUndefined
  | (k, v) :: rest => if String.eqb k key then v else lookup_prop key rest
  end.

(** [v?.key]: short-circuits to [undefined] on [null] and [undefined];
    a primitive has none of the properties the loader asks for. *)
Definition optional_get (v : JsValue) (key : string) : JsValue :=
  match v with
  | JsObject props => lookup_prop key props
  | _ => JsUndefined
  end.

(** The negation of [!config?.projectPrefix || !config?.services]: both
    properties truthy. *)
Definition passes_validation (config : JsValue) : bool :=
  truthy (optional_get config "projectPrefix")
  && truthy (optional_get config "services").

(** A module namespace object: its exports by name.  [mod.default] is
    [undefined] when the module has no default export. *)
Definition JsModule : Type := list (string * JsValue).

Definition mod_default (m : JsModule) : JsValue := lookup_prop "default" m.

(** Truthiness of a [string | null], as tested by [if (configPath)]. *)
Definition truthy_path (p : option string) : bool :=
  match p with
  | Some s => negb (String.eqb s "")
  | None => false
  end.

(** ** Exceptions, effects and outcomes *)

(** What a call can throw: an [Error] built by this module, identified by
    its message, or a value thrown by a collaborator (a rejected [import()],
    an exception from the factory). *)
Inductive Exn : Type :=
| Error (message : string)
| Foreign (reason : string).

(** The observable effects, in the order they happen. *)
Inductive Event : Type :=
| EvExistsSync (path : string)
| EvImport (path : string)
| EvCreateDevEnvironment (config : JsValue).

(** How a call ends.  [OutOfFuel] stands for a [while (true)] loop that has
    not exited within the iterations it was given. *)
Inductive Outcome (A : Type) : Type :=
| Returned (a : A)
| Thrown (e : Exn)
| OutOfFuel.

Arguments Thrown {A} e.
Arguments OutOfFuel {A}.

(** ** The runtime the module runs in *)

(** [node:fs], [node:path], [process], the module loader and the factory
    imported from [./environment]; [Env] is the type of [DevEnvironment]
    objects, opaque to this module.  The loader never copies or mutates a
    [DevEnvironment]; it only hands the reference on, so equality of [Env]
    values stands for identity of references. *)
Record Runtime (Env : Type) : Type := {
  existsSync : string -> bool;
  join : string -> string -> string;
  dirname : string -> string;
  process_cwd : string;
  import : string -> Exn + JsModule;
  createDevEnvironment : JsValue -> Exn + Env
}.

(** The module-level state: [let cachedEnv ... | null = null]. *)
Record ModuleState (Env : Type) : Type := { cachedEnv : option Env }.

Definition initial_state (Env : Type) : ModuleState Env := {| cachedEnv := None |}.

(** ** The monad *)

Definition M (Env A : Type) : Type :=
  ModuleState Env -> Outcome A * ModuleState Env * list Event.

Definition ret {Env A} (a : A) : M Env A := fun st => (Returned a, st, []).

Definition throw {Env A} (e : Exn) : M Env A := fun st => (Thrown e, st, []).

Definition diverge {Env A} : M Env A := fun st => (OutOfFuel, st, []).

Definition bind {Env A B} (m : M Env A) (k : A -> M Env B) : M Env B :=
  fun st =>
    match m st with
    | (Returned a, st1, tr1) =>
        match k a st1 with
        | (o, st2, tr2) => (o, st2, tr1 ++ tr2)
        end
    | (Thrown e, st1, tr1) => (Thrown e, st1, tr1)
    | (OutOfFuel, st1, tr1) => (OutOfFuel, st1, tr1)
    end.

Definition emit {Env} (ev : Event) : M Env unit := fun st => (Returned tt, st, [ev]).

Definition read_cachedEnv {Env} : M Env (option Env) :=
  fun st => (Returned (cachedEnv st), st, []).

Definition write_cachedEnv {Env} (v : option Env) : M Env unit :=
  fun _ => (Returned tt, {| cachedEnv := v |}, []).

(** Lift a collaborator that either throws or returns. *)
Definition lift {Env A} (r : Exn + A) : M Env A :=
  match r with
  | inl e => throw e
  | inr a => ret a
  end.

Declare Scope monad_scope.
Delimit Scope monad_scope with monad.
Notation "x <- m ;; k" := (bind m (fun x => k))
  (at level 61, m at next level, right associativity) : monad_scope.
Notation "m ;; k" := (bind m (fun _ => k))
  (at level 61, right associativity) : monad_scope.
Open Scope monad_scope.

(** Projections of a finished run. *)
Definition outcome_of {Env A} (r : Outcome A * ModuleState Env * list Event) : Outcome A :=
  fst (fst r).
Definition state_of {Env A} (r : Outcome A * ModuleState Env * list Event) : ModuleState Env :=
  snd (fst r).
Definition trace_of {Env A} (r : Outcome A * ModuleState Env * list Event) : list Event :=
  snd r.

(** A run that happens after the events [tr]. *)
Definition after {Env A} (tr : list Event) (r : Outcome A * ModuleState Env * list Event)
  : Outcome A * ModuleState Env * list Event :=
  (outcome_of r, state_of r, tr ++ trace_of r).

(** ** The loader *)

Definition CONFIG_FILES : list string :=
  [ "dev.config.ts";
    "dev.config.js";
    "dev-tools.config.ts";
    "dev-tools.config.js" ].

(** The double quote character, for the messages. *)
Definition dquote : string := String (ascii_of_nat 34) EmptyString.

Definition invalid_config_message (configPath : string) : string :=
  ("Invalid config in " ++ dquote ++ configPath ++ dquote
     ++ ". Use defineDevConfig() and export as default.")%string.

Definition no_config_message : string :=
  "No config file found. Create dev.config.ts with: export default defineDevConfig({ ... })".

Definition not_loaded_message : string :=
  "Dev environment not loaded. Call loadDevEnv() first.".

(** The argument of [loadDevEnv]: [options?: { cwd?: string; reload?: boolean }]. *)
Record Options : Type := { cwd : option string; reload : option bool }.

(** [options?.reload], as a condition. *)
Definition reload_requested (options : option Options) : bool :=
  match options with
  | Some o => match reload o with Some b => b | None => false end
  | None => false
  end.

(** [options?.cwd], which is nullish when either part is missing. *)
Definition options_cwd (options : option Options) : option string :=
  match options with
  | Some o => cwd o
  | None => None
  end.

Section Loader.

Context {Env : Type}.
Variable rt : Runtime Env.

Definition existsSync_call (path : string) : M Env bool :=
  emit (EvExistsSync path) ;; ret (existsSync rt path).

Definition import_call (path : string) : M Env JsModule :=
  emit (EvImport path) ;; lift (import rt path).

Definition createDevEnvironment_call (config : JsValue) : M Env Env :=
  emit (EvCreateDevEnvironment config) ;; lift (createDevEnvironment rt config).

(** The inner [for (const file of CONFIG_FILES)] loop of [findConfigFile]:
    [Some configPath] is its early [return configPath], [None] is falling
    out of the loop. *)
Fixpoint check_files (currentDir : string) (files : list string) : M Env (option string) :=
  match files with
  | [] => ret None
  | file :: rest =>
      let configPath := join rt currentDir file in
      found <- existsSync_call configPath ;;
      if found then ret (Some configPath) else check_files currentDir rest
  end.

(** [findConfigFile]: one unit of fuel per iteration of [while (true)]. *)
Fixpoint findConfigFile (fuel : nat) (currentDir : string) : M Env (option string) :=
  match fuel with
  | O => diverge
  | S fuel' =>
      hit <- check_files currentDir CONFIG_FILES ;;
      match hit with
      | Some configPath => ret (Some configPath)
      | None =>
          let parentDir := dirname rt currentDir in
          if String.eqb parentDir currentDir then ret None
          else findConfigFile fuel' parentDir
      end
  end.

Definition loadDevEnv (fuel : nat) (options : option Options) : M Env Env :=
  cached <- read_cachedEnv ;;
  match cached, negb (reload_requested options) with
  | Some env, true => ret env
  | _, _ =>
      let cwd :=
        match options_cwd options with
        | Some d => d
        | None => process_cwd rt
        end in
      configPath <- findConfigFile fuel cwd ;;
      match configPath, truthy_path configPath with
      | Some path, true =>
          mod_ <- import_call path ;;
          let config := mod_default mod_ in
          if negb (truthy (optional_get config "projectPrefix"))
             || negb (truthy (optional_get config "services"))
          then throw (Error (invalid_config_message path))
          else
            env <- createDevEnvironment_call config ;;
            write_cachedEnv (Some env) ;;
            ret env
      | _, _ => throw (Error no_config_message)
      end
  end.

Definition getDevEnv : M Env Env :=
  cached <- read_cachedEnv ;;
  match cached with
  | None => throw (Error not_loaded_message)
  | Some env => ret env
  end.

Definition clearDevEnvCache : M Env unit :=
  write_cachedEnv None.

End Loader.

(** ** The ancestor chain and what the search looks at *)

Section Chain.

Context {Env : Type}.
Variable rt : Runtime Env.

(** [options?.cwd ?? process.cwd()]: where [loadDevEnv] starts the search. *)
Definition start_dir (options : option Options) : string :=
  match options_cwd options with
  | Some d => d
  | None => process_cwd rt
  end.

(** The tail of [loadDevEnv] in closed form: the run from the import of a
    resolved, non-empty [path] on.  [loadDevEnv_uncached] proves that
    [loadDevEnv] runs this way. *)
Definition load_from (path : string) (st : ModuleState Env)
  : Outcome Env * ModuleState Env * list Event :=
  match import rt path with
  | inl e => (Thrown e, st, [EvImport path])
  | inr exports =>
      let config := mod_default exports in
      if passes_validation config then
        match createDevEnvironment rt config with
        | inl e => (Thrown e, st, [EvImport path; EvCreateDevEnvironment config])
        | inr env =>
            (Returned env, {| cachedEnv := Some env |},
             [EvImport path; EvCreateDevEnvironment config])
        end
      else (Thrown (Error (invalid_config_message path)), st, [EvImport path])
  end.

(** The [k]-th ancestor of a directory: [dirname] applied [k] times. *)
Fixpoint ancestor (k : nat) (dir : string) : string :=
  match k with
  | O => dir
  | S k' => ancestor k' (dirname rt dir)
  end.

(** The candidate paths of a directory, in the order of [CONFIG_FILES]. *)
Definition candidates (dir : string) (files : list string) : list string :=
  map (join rt dir) files.

(** Some recognized filename exists in [dir]. *)
Definition has_config (dir : string) : bool :=
  existsb (existsSync rt) (candidates dir CONFIG_FILES).

(** [file] is the first of [files] that exists in [dir], at index [i]. *)
Definition first_present (dir : string) (files : list string) (i : nat) (file : string) : Prop :=
  nth_error files i = Some file /\
  existsSync rt (join rt dir file) = true /\
  forall i' file', i' < i -> nth_error files i' = Some file' ->
                   existsSync rt (join rt dir file') = false.

(** The paths an early-exit scan tests: up to and including the first
    one that exists. *)
Fixpoint tested (paths : list string) : list string :=
  match paths with
  | [] => []
  | p :: rest => p :: (if existsSync rt p then [] else tested rest)
  end.

(** The existence checks on the given files of [dir], as trace events. *)
Definition checks (dir : string) (files : list string) : list Event :=
  map EvExistsSync (candidates dir files).

(** The existence checks on all candidates of the first [k] directories of
    the chain, nearest directory first. *)
Fixpoint checks_upto (k : nat) (dir : string) : list Event :=
  match k with
  | O => []
  | S k' => checks dir CONFIG_FILES ++ checks_upto k' (dirname rt dir)
  end.

End Chain.

(** ** [path.dirname] of a POSIX runtime *)

(** [dirname] is a function of the runtime's [node:path], not of this
    module.  Its POSIX version scans the path from its last character down
    to index 1, skips trailing slashes, and cuts at the first slash that
    follows a non-slash character. *)

Definition is_slash (c : option ascii) : bool :=
  match c with
  | Some c => Ascii.eqb c "/"
  | None => false
  end.

(** The [for (i = path.length - 1; i >= 1; --i)] loop: [Some i] is [end = i]
    at the [break], [None] is [end] left at [-1]. *)
Fixpoint dirname_scan (path : string) (i : nat) (matchedSlash : bool) : option nat :=
  match i with
  | O => None
  | S i' =>
      if is_slash (String.get i path) then
        if matchedSlash then dirname_scan path i' true else Some i
      else dirname_scan path i' false
  end.

Definition posix_dirname (path : string) : string :=
  if Nat.eqb (String.length path) 0 then "."
  else
    let hasRoot := is_slash (String.get 0 path) in
    match dirname_scan path (String.length path - 1) true with
    | None => if hasRoot then "/" else "."
    | Some end_ =>
        if hasRoot && Nat.eqb end_ 1 then "//" else String.substring 0 end_ path
    end.

(** Fuel that always suffices for [findConfigFile] under [posix_dirname]. *)
Definition posix_fuel (startDir : string) : nat := String.length startDir + 2.

(** ** Sequences of calls on the module *)

(** A client of the module makes calls one after another; the runtime may
    differ from call to call (files appear and disappear between calls). *)
Inductive Call (Env : Type) : Type :=
| CallLoadDevEnv (rt : Runtime Env) (fuel : nat) (options : option Options)
| CallGetDevEnv
| CallClearDevEnvCache.

Arguments CallGetDevEnv {Env}.
Arguments CallClearDevEnvCache {Env}.

(** What the client saw of a call. *)
Inductive Reply (Env : Type) : Type :=
| ReplyEnv (o : Outcome Env)
| ReplyVoid (o : Outcome unit).

Arguments ReplyEnv {Env} o.
Arguments ReplyVoid {Env} o.

Definition perform {Env} (c : Call Env) (st : ModuleState Env)
  : Reply Env * ModuleState Env :=
  match c with
  | CallLoadDevEnv rt fuel options =>
      let r := loadDevEnv rt fuel options st in (ReplyEnv (outcome_of r), state_of r)
  | CallGetDevEnv =>
      let r := getDevEnv st in (ReplyEnv (outcome_of r), state_of r)
  | CallClearDevEnvCache =>
      let r := clearDevEnvCache st in (ReplyVoid (outcome_of r), state_of r)
  end.

(** Run the calls in order; the log pairs each call with its reply. *)
Fixpoint run_calls {Env} (cs : list (Call Env)) (st : ModuleState Env)
  : list (Call Env * Reply Env) * ModuleState Env :=
  match cs with
  | [] => ([], st)
  | c :: rest =>
      let (reply, st1) := perform c st in
      let (log, st2) := run_calls rest st1 in
      ((c, reply) :: log, st2)
  end.

(** The specification's reading of a log: the value returned by the last
    successful [loadDevEnv], unless [clearDevEnvCache] was called after it;
    nothing before the first successful load. *)
Fixpoint last_loaded {Env} (slot : option Env) (log : list (Call Env * Reply Env))
  : option Env :=
  match log with
  | [] => slot
  | (CallLoadDevEnv _ _ _, ReplyEnv (Returned env)) :: rest => last_loaded (Some env) rest
  | (CallClearDevEnvCache, _) :: rest => last_loaded None rest
  | _ :: rest => last_loaded slot rest
  end.

(** ** The specification's reading of a valid config *)

(** "A non-empty project-prefix identifier and a non-empty service-definitions
    mapping": a non-empty string and an object with at least one property. *)
Definition spec_valid_config (config : JsValue) : bool :=
  match optional_get config "projectPrefix", optional_get config "services" with
  | JsString prefix, JsObject services =>
      negb (String.eqb prefix "") && negb (Nat.eqb (List.length services) 0)
  | _, _ => false
  end.

(** ** A small project on disk, for concrete runs *)

Module Fixture.

(** [path.join] on a directory that is already normalized, which is all
    the fixtures use: a single separator between directory and file. *)
Definition join_normalized (dir file : string) : string :=
  if String.eqb dir "" then file
  else if String.eqb dir "/" then ("/" ++ file)%string
  else (dir ++ "/" ++ file)%string.

(** [/repo/dev.config.ts] and [/repo/dev.config.js] exist; further down,
    [/repo/packages/app] has no config of its own. *)
Definition repo_files : list string :=
  [ "/repo/dev.config.ts"; "/repo/dev.config.js"; "/repo/packages/app/index.ts" ].

Definition file_exists (files : list string) (path : string) : bool :=
  existsb (String.eqb path) files.

Definition good_config : JsValue :=
  JsObject [ ("projectPrefix", JsString "app");
             ("services", JsObject [ ("postgres", JsObject [ ("port", JsNumber 5432%Z) ]) ]) ].

(** [services: {}]: present and truthy, but empty. *)
Definition empty_services_config : JsValue :=
  JsObject [ ("projectPrefix", JsString "app"); ("services", JsObject []) ].

(** A default export without [services]. *)
Definition no_services_config : JsValue :=
  JsObject [ ("projectPrefix", JsString "app") ].

(** The environment objects are numbered; the factory of the fixtures
    derives the number from the prefix length. *)
Definition factory (config : JsValue) : Exn + nat :=
  match optional_get config "projectPrefix" with
  | JsString prefix => inr (String.length prefix)
  | _ => inl (Foreign "createDevEnvironment: bad prefix")
  end.

Definition runtime_with (files : list string) (exported : JsValue) (here : string)
  : Runtime nat :=
  {| existsSync := file_exists files;
     join := join_normalized;
     dirname := posix_dirname;
     process_cwd := here;
     import := fun _ => inr [ ("default", exported) ];
     createDevEnvironment := factory |}.

Definition repo : Runtime nat := runtime_with repo_files good_config "/repo/packages/app".

Definition repo_empty_services : Runtime nat :=
  runtime_with repo_files empty_services_config "/repo/packages/app".

Definition repo_no_services : Runtime nat :=
  runtime_with repo_files no_services_config "/repo/packages/app".

(** A disk without any config file. *)
Definition bare : Runtime nat := runtime_with [ "/repo/README.md" ] good_config "/repo/packages/app".

Definition loaded (env : nat) : ModuleState nat := {| cachedEnv := Some env |}.

End Fixture.

(** ** The same runtime at another place, or over another disk *)


(** The files on disk have changed. *)
Definition with_existsSync {Env} (rt : Runtime Env) (present : string -> bool)
  : Runtime Env :=
  {| existsSync := present;
     join := join rt;
     dirname := dirname rt;
     process_cwd := process_cwd rt;
     import := import rt;
     createDevEnvironment := createDevEnvironment rt |}.

(** What a trace says about the filesystem: the paths it tested, in order. *)
Fixpoint tested_paths (tr : list Event) : list string :=
  match tr with
  | [] => []
  | EvExistsSync path :: rest => path :: tested_paths rest
  | _ :: rest => tested_paths rest
  end.

Module Scenario.

(** A monorepo: the config sits at [/repo], the packages have none. *)
Definition monorepo_files : list string :=
  [ "/repo/dev-tools.config.js"; "/repo/packages/api/index.ts"; "/repo/packages/web/index.ts" ].

Definition monorepo : Runtime nat :=
  Fixture.runtime_with monorepo_files Fixture.good_config "/repo/packages/api".

(** The config file of [Fixture.repo] does not evaluate: [import()] rejects. *)
Definition repo_broken_import : Runtime nat :=
  {| existsSync := Fixture.file_exists Fixture.repo_files;
     join := Fixture.join_normalized;
     dirname := posix_dirname;
     process_cwd := "/repo/packages/app";
     import := fun _ => inl (Foreign "SyntaxError: Unexpected token");
     createDevEnvironment := Fixture.factory |}.

(** The config is well-formed but the factory refuses it: the prefix is a
    number, truthy but not a string. *)
Definition numeric_prefix_config : JsValue :=
  JsObject [ ("projectPrefix", JsNumber 7%Z); ("services", JsObject []) ].

Definition repo_numeric_prefix : Runtime nat :=
  Fixture.runtime_with Fixture.repo_files numeric_prefix_config "/repo/packages/app".

(** The same disk with unrelated files added next to the packages. *)
Definition repo_with_noise (path : string) : bool :=
  Fixture.file_exists
    ("/repo/packages/app/package.json" :: "/repo/packages/dev.config.json"
       :: Fixture.repo_files) path.

End Scenario.

(** * Properties *)

(** ** Runs of the monad *)

Lemma after_nil {Env A} (r : Outcome A * ModuleState Env * list Event) :
  after [] r = r.
Proof. destruct r as [[o st] tr]. reflexivity. Qed.

Lemma after_after {Env A} (tr1 tr2 : list Event)
      (r : Outcome A * ModuleState Env * list Event) :
  after tr1 (after tr2 r) = after (tr1 ++ tr2) r.
Proof. unfold after; simpl. now rewrite app_assoc. Qed.

Lemma bind_returned {Env A B} (m : M Env A) (k : A -> M Env B) st a st1 tr1 :
  m st = (Returned a, st1, tr1) ->
  bind m k st = after tr1 (k a st1).
Proof.
  intros Hm. unfold bind, after, outcome_of, state_of, trace_of. rewrite Hm.
  destruct (k a st1) as [[o st2] tr2]. reflexivity.
Qed.

Lemma bind_thrown {Env A B} (m : M Env A) (k : A -> M Env B) st e st1 tr1 :
  m st = (Thrown e, st1, tr1) ->
  bind m k st = (Thrown e, st1, tr1).
Proof. intros Hm. unfold bind. now rewrite Hm. Qed.

Lemma bind_out_of_fuel {Env A B} (m : M Env A) (k : A -> M Env B) st st1 tr1 :
  m st = (OutOfFuel, st1, tr1) ->
  bind m k st = (OutOfFuel, st1, tr1).
Proof. intros Hm. unfold bind. now rewrite Hm. Qed.

Unset Implicit Arguments.

(** ** The search *)

Section Search.

Context {Env : Type}.
Variable rt : Runtime Env.

Lemma existsSync_call_run path (st : ModuleState Env) :
  existsSync_call rt path st = (Returned (existsSync rt path), st, [EvExistsSync path]).
Proof. reflexivity. Qed.

(** The inner loop returns the first candidate that exists, touches
    nothing but the filesystem, and stops testing at the first hit. *)
Lemma check_files_run dir files (st : ModuleState Env) :
  check_files rt dir files st =
  (Returned (find (existsSync rt) (candidates rt dir files)), st,
   map EvExistsSync (tested rt (candidates rt dir files))).
Proof.
  induction files as [|file rest IH]; [reflexivity|].
  cbn [check_files candidates map find tested].
  rewrite (bind_returned _ _ _ (existsSync_call_run _ st)).
  destruct (existsSync rt (join rt dir file)); [reflexivity|].
  rewrite IH. reflexivity.
Qed.

Lemma find_none_has_config dir :
  find (existsSync rt) (candidates rt dir CONFIG_FILES) = None <->
  has_config rt dir = false.
Proof.
  unfold has_config. generalize (candidates rt dir CONFIG_FILES) as ps.
  induction ps as [|p ps IH]; simpl; [tauto|].
  destruct (existsSync rt p); simpl; [split; discriminate | exact IH].
Qed.

Lemma tested_all_absent paths :
  existsb (existsSync rt) paths = false -> tested rt paths = paths.
Proof.
  induction paths as [|p ps IH]; simpl; [reflexivity|].
  destruct (existsSync rt p); simpl; [discriminate|].
  intros H. now rewrite IH.
Qed.

(** One iteration of [while (true)], by cases on what the directory
    holds and on whether it is its own parent. *)
Lemma findConfigFile_hit fuel dir path (st : ModuleState Env) :
  find (existsSync rt) (candidates rt dir CONFIG_FILES) = Some path ->
  findConfigFile rt (S fuel) dir st =
  (Returned (Some path), st,
   map EvExistsSync (tested rt (candidates rt dir CONFIG_FILES))).
Proof.
  intros Hfind. cbn [findConfigFile].
  rewrite (bind_returned _ _ _ (check_files_run dir CONFIG_FILES st)).
  rewrite Hfind. unfold after, ret; simpl. now rewrite app_nil_r.
Qed.

Lemma findConfigFile_root fuel dir (st : ModuleState Env) :
  has_config rt dir = false ->
  dirname rt dir = dir ->
  findConfigFile rt (S fuel) dir st = (Returned None, st, checks rt dir CONFIG_FILES).
Proof.
  intros Hnone Hroot. cbn [findConfigFile].
  rewrite (bind_returned _ _ _ (check_files_run dir CONFIG_FILES st)).
  rewrite (proj2 (find_none_has_config dir) Hnone).
  rewrite Hroot, String.eqb_refl.
  unfold after, ret, checks, outcome_of, state_of, trace_of; cbn [fst snd].
  rewrite app_nil_r. now rewrite tested_all_absent.
Qed.

Lemma findConfigFile_up fuel dir (st : ModuleState Env) :
  has_config rt dir = false ->
  dirname rt dir <> dir ->
  findConfigFile rt (S fuel) dir st =
  after (checks rt dir CONFIG_FILES) (findConfigFile rt fuel (dirname rt dir) st).
Proof.
  intros Hnone Hup. cbn [findConfigFile].
  rewrite (bind_returned _ _ _ (check_files_run dir CONFIG_FILES st)).
  rewrite (proj2 (find_none_has_config dir) Hnone).
  rewrite (proj2 (String.eqb_neq _ _) Hup).
  unfold checks. now rewrite tested_all_absent.
Qed.

Lemma ancestor_S k dir :
  ancestor rt (S k) dir = dirname rt (ancestor rt k dir).
Proof.
  revert dir. induction k as [|k IH]; intros dir; [reflexivity|].
  change (ancestor rt (S (S k)) dir) with (ancestor rt (S k) (dirname rt dir)).
  rewrite IH. reflexivity.
Qed.

(** Once the chain reaches a directory that is its own parent it stays there. *)
Lemma ancestor_root_stays j dir :
  dirname rt (ancestor rt j dir) = ancestor rt j dir ->
  forall k, j <= k -> ancestor rt k dir = ancestor rt j dir.
Proof.
  intros Hroot k Hle. induction Hle as [|k Hle IH]; [reflexivity|].
  rewrite ancestor_S, IH. exact Hroot.
Qed.

(** Climbing: while the directories hold no candidate and are not their
    own parent, [k] iterations test all candidates of [k] directories and
    leave the search at the [k]-th ancestor. *)
Lemma findConfigFile_climb k : forall fuel dir (st : ModuleState Env),
  (forall j, j < k -> has_config rt (ancestor rt j dir) = false) ->
  (forall j, j < k -> dirname rt (ancestor rt j dir) <> ancestor rt j dir) ->
  findConfigFile rt (k + fuel) dir st =
  after (checks_upto rt k dir) (findConfigFile rt fuel (ancestor rt k dir) st).
Proof.
  induction k as [|k IH]; intros fuel dir st Hnone Hup.
  - simpl. now rewrite after_nil.
  - change (S k + fuel) with (S (k + fuel)).
    rewrite findConfigFile_up.
    + rewrite IH.
      * rewrite after_after. reflexivity.
      * intros j Hj. apply (Hnone (S j)). lia.
      * intros j Hj. apply (Hup (S j)). lia.
    + apply (Hnone 0). lia.
    + apply (Hup 0). lia.
Qed.

End Search.

Section Nearest.

Context {Env : Type}.
Variable rt : Runtime Env.

Lemma first_present_find dir files : forall i file,
  first_present rt dir files i file ->
  find (existsSync rt) (candidates rt dir files) = Some (join rt dir file) /\
  tested rt (candidates rt dir files) = candidates rt dir (firstn (S i) files).
Proof.
  induction files as [|f rest IH]; intros i file (Hnth & Hex & Hbefore).
  - destruct i; discriminate.
  - destruct i as [|i].
    + injection Hnth as ->. cbn [candidates map find tested firstn].
      rewrite Hex. split; reflexivity.
    + cbn [candidates map find tested].
      rewrite (Hbefore 0 f) by (try lia; reflexivity).
      destruct (IH i file) as [Hfind Htested].
      * split; [exact Hnth|]. split; [exact Hex|].
        intros i' file' Hlt Hn. apply (Hbefore (S i') file'); [lia | exact Hn].
      * split; [exact Hfind|].
        fold (candidates rt dir rest). rewrite Htested. reflexivity.
Qed.

Lemma first_present_has_config dir i file :
  first_present rt dir CONFIG_FILES i file -> has_config rt dir = true.
Proof.
  intros (Hnth & Hex & _). unfold has_config. apply existsb_exists.
  exists (join rt dir file). split; [|exact Hex].
  unfold candidates. apply in_map. eapply nth_error_In; eassumption.
Qed.

(** A directory that holds a candidate lies strictly below every
    candidate-free directory that is its own parent. *)
Lemma no_root_below_config k dir :
  has_config rt (ancestor rt k dir) = true ->
  (forall j, j < k -> has_config rt (ancestor rt j dir) = false) ->
  forall j, j < k -> dirname rt (ancestor rt j dir) <> ancestor rt j dir.
Proof.
  intros Hk Hnone j Hj Hroot.
  rewrite (ancestor_root_stays rt j dir Hroot k) in Hk by lia.
  rewrite (Hnone j Hj) in Hk. discriminate.
Qed.

Lemma findConfigFile_finds k i file fuel dir (st : ModuleState Env) :
  (forall j, j < k -> has_config rt (ancestor rt j dir) = false) ->
  first_present rt (ancestor rt k dir) CONFIG_FILES i file ->
  k < fuel ->
  findConfigFile rt fuel dir st =
  (Returned (Some (join rt (ancestor rt k dir) file)), st,
   checks_upto rt k dir ++ checks rt (ancestor rt k dir) (firstn (S i) CONFIG_FILES)).
Proof.
  intros Hnone Hfirst Hfuel.
  replace fuel with (k + S (fuel - S k)) by lia.
  rewrite findConfigFile_climb.
  - destruct (first_present_find _ _ _ _ Hfirst) as [Hfind Htested].
    rewrite (findConfigFile_hit rt _ _ _ st Hfind), Htested. reflexivity.
  - exact Hnone.
  - apply no_root_below_config; [|exact Hnone].
    eapply first_present_has_config; eassumption.
Qed.

(** Conversely, a path that the search returns is the first candidate
    present in the nearest directory of the chain that holds one. *)
Lemma find_some_first_present dir files : forall path,
  find (existsSync rt) (candidates rt dir files) = Some path ->
  exists i file, path = join rt dir file /\ first_present rt dir files i file.
Proof.
  induction files as [|f rest IH]; intros path Hfind; [discriminate|].
  cbn [candidates map find] in Hfind.
  destruct (existsSync rt (join rt dir f)) eqn:Hf.
  - injection Hfind as <-. exists 0, f. split; [reflexivity|].
    split; [reflexivity|]. split; [exact Hf|]. intros i' file' Hlt. lia.
  - destruct (IH path Hfind) as (i & file & -> & Hnth & Hex & Hbefore).
    exists (S i), file. split; [reflexivity|].
    split; [exact Hnth|]. split; [exact Hex|].
    intros [|i'] file' Hlt Hn.
    + injection Hn as <-. exact Hf.
    + apply (Hbefore i' file'); [lia | exact Hn].
Qed.

Lemma findConfigFile_returns_nearest fuel : forall dir (st : ModuleState Env) path,
  outcome_of (findConfigFile rt fuel dir st) = Returned (Some path) ->
  exists k i file,
    k < fuel /\
    path = join rt (ancestor rt k dir) file /\
    (forall j, j < k -> has_config rt (ancestor rt j dir) = false) /\
    first_present rt (ancestor rt k dir) CONFIG_FILES i file.
Proof.
  induction fuel as [|fuel IH]; intros dir st path Hout; [discriminate|].
  destruct (find (existsSync rt) (candidates rt dir CONFIG_FILES)) as [p|] eqn:Hfind.
  - rewrite (findConfigFile_hit rt fuel dir _ st Hfind) in Hout.
    injection Hout as ->.
    destruct (find_some_first_present _ _ _ Hfind) as (i & file & -> & Hfirst).
    exists 0, i, file. split; [lia|]. split; [reflexivity|].
    split; [intros j Hj; lia | exact Hfirst].
  - apply find_none_has_config in Hfind.
    destruct (String.eqb_spec (dirname rt dir) dir) as [Hroot|Hup].
    + rewrite (findConfigFile_root rt fuel dir st Hfind Hroot) in Hout. discriminate.
    + rewrite (findConfigFile_up rt fuel dir st Hfind Hup) in Hout.
      destruct (IH (dirname rt dir) st path Hout) as (k & i & file & Hk & -> & Hnone & Hfirst).
      exists (S k), i, file. split; [lia|]. split; [reflexivity|].
      split; [|exact Hfirst].
      intros [|j] Hj; [exact Hfind | apply (Hnone j); lia].
Qed.

End Nearest.

(** ** Termination of the search *)

Section Termination.

Context {Env : Type}.
Variable rt : Runtime Env.

Lemma outcome_of_after {A} tr (r : Outcome A * ModuleState Env * list Event) :
  outcome_of (after tr r) = outcome_of r.
Proof. reflexivity. Qed.

Lemma state_of_after {A} tr (r : Outcome A * ModuleState Env * list Event) :
  state_of (after tr r) = state_of r.
Proof. reflexivity. Qed.

(** If the chain reaches a directory that is its own parent after [k]
    steps, more than [k] iterations are never needed. *)
Lemma findConfigFile_returns k : forall fuel dir (st : ModuleState Env),
  dirname rt (ancestor rt k dir) = ancestor rt k dir ->
  k < fuel ->
  exists r, outcome_of (findConfigFile rt fuel dir st) = Returned r.
Proof.
  induction k as [|k IH]; intros [|fuel] dir st Hroot Hfuel; try lia.
  - destruct (find (existsSync rt) (candidates rt dir CONFIG_FILES)) as [p|] eqn:Hfind.
    + rewrite (findConfigFile_hit rt fuel dir p st Hfind). now exists (Some p).
    + apply find_none_has_config in Hfind.
      rewrite (findConfigFile_root rt fuel dir st Hfind Hroot). now exists None.
  - destruct (find (existsSync rt) (candidates rt dir CONFIG_FILES)) as [p|] eqn:Hfind.
    + rewrite (findConfigFile_hit rt fuel dir p st Hfind). now exists (Some p).
    + apply find_none_has_config in Hfind.
      destruct (String.eqb_spec (dirname rt dir) dir) as [Hhere|Hup].
      * rewrite (findConfigFile_root rt fuel dir st Hfind Hhere). now exists None.
      * rewrite (findConfigFile_up rt fuel dir st Hfind Hup), outcome_of_after.
        apply IH; [exact Hroot | lia].
Qed.

(** Fuel is not observable: once the search returns, more fuel changes
    neither the result nor the trace. *)
Lemma findConfigFile_fuel_irrelevant fuel : forall fuel' dir (st : ModuleState Env) r,
  outcome_of (findConfigFile rt fuel dir st) = Returned r ->
  fuel <= fuel' ->
  findConfigFile rt fuel' dir st = findConfigFile rt fuel dir st.
Proof.
  induction fuel as [|fuel IH]; intros [|fuel'] dir st r Hout Hle;
    try discriminate; try lia.
  destruct (find (existsSync rt) (candidates rt dir CONFIG_FILES)) as [p|] eqn:Hfind.
  - now rewrite !(findConfigFile_hit rt _ dir p st Hfind).
  - apply find_none_has_config in Hfind.
    destruct (String.eqb_spec (dirname rt dir) dir) as [Hhere|Hup].
    + now rewrite !(findConfigFile_root rt _ dir st Hfind Hhere).
    + rewrite (findConfigFile_up rt fuel dir st Hfind Hup) in Hout |- *.
      rewrite (findConfigFile_up rt fuel' dir st Hfind Hup).
      rewrite outcome_of_after in Hout.
      rewrite (IH fuel' (dirname rt dir) st r Hout) by lia. reflexivity.
Qed.

(** A null result comes from a directory that is its own parent, after
    every directory up to it was found without a candidate. *)
Lemma findConfigFile_null_at_root fuel : forall dir (st : ModuleState Env),
  outcome_of (findConfigFile rt fuel dir st) = Returned None ->
  exists k, k < fuel /\
            dirname rt (ancestor rt k dir) = ancestor rt k dir /\
            forall j, j <= k -> has_config rt (ancestor rt j dir) = false.
Proof.
  induction fuel as [|fuel IH]; intros dir st Hout; [discriminate|].
  destruct (find (existsSync rt) (candidates rt dir CONFIG_FILES)) as [p|] eqn:Hfind.
  - rewrite (findConfigFile_hit rt fuel dir p st Hfind) in Hout. discriminate.
  - apply find_none_has_config in Hfind.
    destruct (String.eqb_spec (dirname rt dir) dir) as [Hhere|Hup].
    + exists 0. split; [lia|]. split; [exact Hhere|].
      intros j Hj. replace j with 0 by lia. exact Hfind.
    + rewrite (findConfigFile_up rt fuel dir st Hfind Hup), outcome_of_after in Hout.
      destruct (IH _ _ Hout) as (k & Hk & Hroot & Hnone).
      exists (S k). split; [lia|]. split; [exact Hroot|].
      intros [|j] Hj; [exact Hfind | apply Hnone; lia].
Qed.

(** Nothing else stops the loop: above candidate-free directories that
    are not their own parent it is still running, at whatever depth. *)
Lemma findConfigFile_still_climbing n dir (st : ModuleState Env) :
  (forall j, j < n -> has_config rt (ancestor rt j dir) = false) ->
  (forall j, j < n -> dirname rt (ancestor rt j dir) <> ancestor rt j dir) ->
  findConfigFile rt n dir st = (OutOfFuel, st, checks_upto rt n dir).
Proof.
  intros Hnone Hup. replace n with (n + 0) at 1 by lia.
  rewrite (findConfigFile_climb rt n 0 dir st Hnone Hup).
  unfold after; simpl. now rewrite app_nil_r.
Qed.

End Termination.

(** ** [posix_dirname] reaches its fixed point *)

Lemma dirname_scan_bounds path : forall i matchedSlash end_,
  dirname_scan path i matchedSlash = Some end_ ->
  1 <= end_ <= i /\ (matchedSlash = true -> end_ < i).
Proof.
  induction i as [|i IH]; intros m e Hscan; [discriminate|].
  cbn [dirname_scan] in Hscan.
  destruct (is_slash (String.get (S i) path)).
  - destruct m.
    + destruct (IH true e Hscan) as [Hb Hlt]. specialize (Hlt eq_refl). lia.
    + injection Hscan as <-. split; [lia | discriminate].
  - destruct (IH false e Hscan) as [Hb _]. lia.
Qed.

Lemma length_substring_le m : forall s, String.length (String.substring 0 m s) <= m.
Proof.
  induction m as [|m IH]; intros [|c s]; simpl; try lia.
  specialize (IH s). lia.
Qed.

Lemma posix_dirname_shorter path :
  2 <= String.length path ->
  String.length (posix_dirname path) < String.length path.
Proof.
  intros Hlen. unfold posix_dirname.
  destruct (Nat.eqb_spec (String.length path) 0) as [H0|_]; [lia|].
  destruct (dirname_scan path (String.length path - 1) true) as [e|] eqn:Hscan.
  - destruct (dirname_scan_bounds _ _ _ _ Hscan) as [Hb Hlt]. specialize (Hlt eq_refl).
    destruct (is_slash (String.get 0 path) && Nat.eqb e 1).
    + simpl. lia.
    + pose proof (length_substring_le e path). lia.
  - destruct (is_slash (String.get 0 path)); simpl; lia.
Qed.

Lemma posix_dirname_short path :
  String.length path <= 1 ->
  posix_dirname (posix_dirname path) = posix_dirname path.
Proof.
  destruct path as [|c [|c' rest]]; simpl; intros Hlen; try lia; [reflexivity|].
  unfold posix_dirname; simpl.
  destruct (Ascii.eqb c "/"); reflexivity.
Qed.

Section PosixRuntime.

Context {Env : Type}.
Variable rt : Runtime Env.
Hypothesis dirname_posix : forall path, dirname rt path = posix_dirname path.

Lemma posix_root_reached n : forall dir,
  String.length dir <= n ->
  exists k, k <= n + 1 /\ dirname rt (ancestor rt k dir) = ancestor rt k dir.
Proof.
  induction n as [|n IH]; intros dir Hlen.
  - exists 1. split; [lia|]. cbn [ancestor]. rewrite !dirname_posix.
    apply posix_dirname_short. lia.
  - destruct (Nat.le_gt_cases (String.length dir) 1) as [Hshort|Hlong].
    + exists 1. split; [lia|]. cbn [ancestor]. rewrite !dirname_posix.
      apply posix_dirname_short. exact Hshort.
    + destruct (IH (dirname rt dir)) as (k & Hk & Hroot).
      * rewrite dirname_posix. pose proof (posix_dirname_shorter dir). lia.
      * exists (S k). split; [lia | exact Hroot].
Qed.

Lemma posix_findConfigFile_returns dir (st : ModuleState Env) :
  exists r, outcome_of (findConfigFile rt (posix_fuel dir) dir st) = Returned r.
Proof.
  destruct (posix_root_reached (String.length dir) dir (le_n _)) as (k & Hk & Hroot).
  apply (findConfigFile_returns rt k); [exact Hroot | unfold posix_fuel; lia].
Qed.

End PosixRuntime.

(** ** Runs of [loadDevEnv] *)

Section Load.

Context {Env : Type}.
Variable rt : Runtime Env.

(** The search reads and writes no module state, and what it does is the
    same in every state. *)
Lemma findConfigFile_pure fuel : forall dir (st st' : ModuleState Env),
  findConfigFile rt fuel dir st =
  (outcome_of (findConfigFile rt fuel dir st'), st,
   trace_of (findConfigFile rt fuel dir st')).
Proof.
  induction fuel as [|fuel IH]; intros dir st st'; [reflexivity|].
  destruct (find (existsSync rt) (candidates rt dir CONFIG_FILES)) as [p|] eqn:Hfind.
  - now rewrite !(findConfigFile_hit rt fuel dir p _ Hfind).
  - apply find_none_has_config in Hfind.
    destruct (String.eqb_spec (dirname rt dir) dir) as [Hhere|Hup].
    + now rewrite !(findConfigFile_root rt fuel dir _ Hfind Hhere).
    + rewrite !(findConfigFile_up rt fuel dir _ Hfind Hup).
      rewrite (IH (dirname rt dir) st st'). reflexivity.
Qed.

Lemma findConfigFile_state fuel dir (st : ModuleState Env) :
  state_of (findConfigFile rt fuel dir st) = st.
Proof. now rewrite (findConfigFile_pure fuel dir st st). Qed.

Lemma findConfigFile_never_throws fuel : forall dir (st : ModuleState Env) e,
  outcome_of (findConfigFile rt fuel dir st) <> Thrown e.
Proof.
  induction fuel as [|fuel IH]; intros dir st e; [discriminate|].
  destruct (find (existsSync rt) (candidates rt dir CONFIG_FILES)) as [p|] eqn:Hfind.
  - rewrite (findConfigFile_hit rt fuel dir p _ Hfind). discriminate.
  - apply find_none_has_config in Hfind.
    destruct (String.eqb_spec (dirname rt dir) dir) as [Hhere|Hup].
    + rewrite (findConfigFile_root rt fuel dir _ Hfind Hhere). discriminate.
    + rewrite (findConfigFile_up rt fuel dir _ Hfind Hup). apply IH.
Qed.

(** The cache answers: nothing else happens. *)
Lemma loadDevEnv_cached fuel options (st : ModuleState Env) env :
  cachedEnv st = Some env ->
  reload_requested options = false ->
  loadDevEnv rt fuel options st = (Returned env, st, []).
Proof.
  intros Hc Hr. unfold loadDevEnv, bind, read_cachedEnv, ret.
  rewrite Hc, Hr. reflexivity.
Qed.

(** The cache does not answer: search, then load what was found. *)
Lemma loadDevEnv_uncached fuel options (st : ModuleState Env) :
  cachedEnv st = None \/ reload_requested options = true ->
  loadDevEnv rt fuel options st =
  let search := findConfigFile rt fuel (start_dir rt options) st in
  match outcome_of search with
  | Returned (Some path) =>
      if String.eqb path "" then
        (Thrown (Error no_config_message), st, trace_of search)
      else after (trace_of search) (load_from rt path st)
  | Returned None => (Thrown (Error no_config_message), st, trace_of search)
  | Thrown e => (Thrown e, st, trace_of search)
  | OutOfFuel => (OutOfFuel, st, trace_of search)
  end.
Proof.
  intros Hun.
  assert (Hbody : loadDevEnv rt fuel options st =
    bind (findConfigFile rt fuel (start_dir rt options))
      (fun configPath =>
         match configPath, truthy_path configPath with
         | Some path, true =>
             mod_ <- import_call rt path ;;
             let config := mod_default mod_ in
             if negb (truthy (optional_get config "projectPrefix"))
                || negb (truthy (optional_get config "services"))
             then throw (Error (invalid_config_message path))
             else
               env <- createDevEnvironment_call rt config ;;
               write_cachedEnv (Some env) ;;
               ret env
         | _, _ => throw (Error no_config_message)
         end) st).
  { unfold loadDevEnv at 1. unfold bind at 1. unfold read_cachedEnv at 1.
    unfold start_dir.
    destruct Hun as [Hc|Hr]; [rewrite Hc | rewrite Hr].
    - destruct (bind _ _ st) as [[o s'] tr]. reflexivity.
    - destruct (cachedEnv st); cbn [negb];
        destruct (bind _ _ st) as [[o s'] tr]; reflexivity. }
  rewrite Hbody. clear Hbody. cbv zeta.
  unfold bind at 1.
  rewrite (findConfigFile_pure fuel (start_dir rt options) st st).
  set (search := findConfigFile rt fuel (start_dir rt options) st).
  cbn [outcome_of state_of trace_of fst snd].
  destruct (outcome_of search) as [[path|]|e|]; try reflexivity.
  - cbn [truthy_path]. destruct (String.eqb path ""); cbn [negb].
    + unfold throw. now rewrite app_nil_r.
    + unfold load_from, passes_validation, import_call, createDevEnvironment_call,
        bind, emit, lift, throw, ret, write_cachedEnv, after,
        outcome_of, state_of, trace_of.
      destruct (import rt path) as [e|exports]; cbn; [reflexivity|].
      destruct (truthy (optional_get (mod_default exports) "projectPrefix"));
        destruct (truthy (optional_get (mod_default exports) "services"));
        cbn; try reflexivity.
      destruct (createDevEnvironment rt (mod_default exports)); reflexivity.
  - unfold throw. now rewrite app_nil_r.
Qed.

End Load.

Section LoadState.

Context {Env : Type}.
Variable rt : Runtime Env.

Lemma loadDevEnv_cases options (st : ModuleState Env) :
  (exists env, cachedEnv st = Some env /\ reload_requested options = false) \/
  (cachedEnv st = None \/ reload_requested options = true).
Proof.
  destruct (cachedEnv st) as [env|]; [|now right; left].
  destruct (reload_requested options); [now right; right | left; now exists env].
Qed.

(** After the import, the slot is written exactly when a value is returned. *)
Lemma load_from_state path (st : ModuleState Env) :
  match outcome_of (load_from rt path st) with
  | Returned env => state_of (load_from rt path st) = {| cachedEnv := Some env |}
  | _ => state_of (load_from rt path st) = st
  end.
Proof.
  unfold load_from.
  destruct (import rt path) as [e|exports]; [reflexivity|]. cbv zeta.
  destruct (passes_validation (mod_default exports)); [|reflexivity].
  destruct (createDevEnvironment rt (mod_default exports)); reflexivity.
Qed.

(** What the import and the factory do does not depend on the slot. *)
Lemma load_from_any_state path (st st' : ModuleState Env) :
  outcome_of (load_from rt path st) = outcome_of (load_from rt path st') /\
  trace_of (load_from rt path st) = trace_of (load_from rt path st').
Proof.
  unfold load_from.
  destruct (import rt path) as [e|exports]; [now split|]. cbv zeta.
  destruct (passes_validation (mod_default exports)); [|now split].
  destruct (createDevEnvironment rt (mod_default exports)); now split.
Qed.

(** The slot after a call: the returned value if one was returned,
    untouched otherwise. *)
Lemma loadDevEnv_state fuel options (st : ModuleState Env) :
  match outcome_of (loadDevEnv rt fuel options st) with
  | Returned env => cachedEnv (state_of (loadDevEnv rt fuel options st)) = Some env
  | _ => state_of (loadDevEnv rt fuel options st) = st
  end.
Proof.
  destruct (loadDevEnv_cases options st) as [(env & Hc & Hr)|Hun].
  - rewrite (loadDevEnv_cached rt fuel options st env Hc Hr). exact Hc.
  - rewrite (loadDevEnv_uncached rt fuel options st Hun). cbv zeta.
    destruct (outcome_of (findConfigFile rt fuel (start_dir rt options) st))
      as [[path|]|e|]; try reflexivity.
    destruct (String.eqb path ""); [reflexivity|].
    rewrite outcome_of_after, state_of_after.
    pose proof (load_from_state path st) as H.
    destruct (outcome_of (load_from rt path st)); [now rewrite H | exact H | exact H].
Qed.

(** The first thing a search with fuel does is test [dev.config.ts] in
    the directory it starts from. *)
Lemma findConfigFile_first_check fuel dir (st : ModuleState Env) :
  exists rest,
    trace_of (findConfigFile rt (S fuel) dir st) =
    EvExistsSync (join rt dir "dev.config.ts") :: rest.
Proof.
  destruct (find (existsSync rt) (candidates rt dir CONFIG_FILES)) as [p|] eqn:Hfind.
  - rewrite (findConfigFile_hit rt fuel dir p st Hfind).
    cbn [CONFIG_FILES candidates map tested trace_of snd]. eexists. reflexivity.
  - apply find_none_has_config in Hfind.
    destruct (String.eqb_spec (dirname rt dir) dir) as [Hhere|Hup].
    + rewrite (findConfigFile_root rt fuel dir st Hfind Hhere).
      cbn [CONFIG_FILES checks candidates map trace_of snd]. eexists. reflexivity.
    + rewrite (findConfigFile_up rt fuel dir st Hfind Hup).
      unfold after.
      cbn [CONFIG_FILES checks candidates map trace_of snd app]. eexists. reflexivity.
Qed.

End LoadState.

(** ** The cache slot *)

Lemma getDevEnv_run {Env : Type} (st : ModuleState Env) :
  getDevEnv st =
  (match cachedEnv st with
   | Some env => Returned env
   | None => Thrown (Error not_loaded_message)
   end, st, []).
Proof.
  unfold getDevEnv, bind, read_cachedEnv, throw, ret.
  destruct (cachedEnv st); reflexivity.
Qed.

(** One call moves the slot the way the specification reads the log. *)
Lemma perform_slot {Env : Type} (c : Call Env) (st : ModuleState Env) :
  cachedEnv (snd (perform c st)) = last_loaded (cachedEnv st) [(c, fst (perform c st))].
Proof.
  destruct c as [rt fuel options| |]; cbn [perform fst snd last_loaded].
  - pose proof (loadDevEnv_state rt fuel options st) as H.
    destruct (outcome_of (loadDevEnv rt fuel options st)); [exact H | now rewrite H ..].
  - rewrite getDevEnv_run. cbn [outcome_of state_of fst snd].
    destruct (cachedEnv st); reflexivity.
  - reflexivity.
Qed.

Lemma last_loaded_cons {Env : Type} slot (entry : Call Env * Reply Env) log :
  last_loaded slot (entry :: log) = last_loaded (last_loaded slot [entry]) log.
Proof.
  destruct entry as [[rt fuel options| |] [[env|e|]|o]]; reflexivity.
Qed.

Lemma run_calls_slot {Env : Type} (calls : list (Call Env)) : forall st : ModuleState Env,
  cachedEnv (snd (run_calls calls st)) = last_loaded (cachedEnv st) (fst (run_calls calls st)).
Proof.
  induction calls as [|c calls IH]; intros st; [reflexivity|].
  cbn [run_calls].
  destruct (perform c st) as [reply st1] eqn:Hc.
  specialize (IH st1). destruct (run_calls calls st1) as [log st2].
  cbn [fst snd] in *. rewrite last_loaded_cons, IH. f_equal.
  pose proof (perform_slot c st) as H. rewrite Hc in H. exact H.
Qed.

(** * The claims *)

(** C1. With a non-empty slot and no reload requested, [loadDevEnv] returns
    the cached environment itself and does nothing else: no existence check,
    no import, no validation, no call of the factory, no write to the slot.
    With reload requested it searches and loads exactly as on an empty
    slot: the search runs first (its first step tests [dev.config.ts] in the
    start directory) and the resolved path is imported.  Two calls in
    succession: after a call that returned [env], a call without reload
    returns [env] with an empty trace. *)
Theorem loadDevEnv_cache_and_reload :
  forall (Env : Type) (rt : Runtime Env) (fuel : nat) (options : option Options)
         (st : ModuleState Env),
    (forall env,
        cachedEnv st = Some env ->
        reload_requested options = false ->
        loadDevEnv rt fuel options st = (Returned env, st, [])) /\
    (reload_requested options = true ->
     let search := findConfigFile rt fuel (start_dir rt options) st in
     let r := loadDevEnv rt fuel options st in
     outcome_of r = outcome_of (loadDevEnv rt fuel options (initial_state Env)) /\
     trace_of r = trace_of (loadDevEnv rt fuel options (initial_state Env)) /\
     (exists rest, trace_of r = trace_of search ++ rest) /\
     (forall n, fuel = S n ->
        exists rest,
          trace_of r = EvExistsSync (join rt (start_dir rt options) "dev.config.ts") :: rest) /\
     (forall path,
        outcome_of search = Returned (Some path) ->
        path <> "" ->
        exists rest, trace_of r = trace_of search ++ EvImport path :: rest)) /\
    (forall env st1 tr1 (rt2 : Runtime Env) fuel2 options2,
        loadDevEnv rt fuel options st = (Returned env, st1, tr1) ->
        reload_requested options2 = false ->
        loadDevEnv rt2 fuel2 options2 st1 = (Returned env, st1, [])).
Proof.
  intros Env rt fuel options st. split; [|split].
  - intros env Hc Hr. now apply loadDevEnv_cached.
  - intros Hr search r.
    assert (Hprefix : exists rest, trace_of r = trace_of search ++ rest).
    { subst r. rewrite (loadDevEnv_uncached rt fuel options st (or_intror Hr)).
      cbv zeta. fold search.
      destruct (outcome_of search) as [[path|]|e|];
        try (exists []; cbn [trace_of snd]; now rewrite app_nil_r).
      destruct (String.eqb path "").
      - exists []. cbn [trace_of snd]. now rewrite app_nil_r.
      - eexists. reflexivity. }
    split; [|split; [|split; [exact Hprefix|split]]].
    + subst r. rewrite (loadDevEnv_uncached rt fuel options st (or_intror Hr)).
      rewrite (loadDevEnv_uncached rt fuel options (initial_state Env) (or_intror Hr)).
      cbv zeta.
      rewrite (findConfigFile_pure rt fuel _ (initial_state Env) st).
      cbn [outcome_of trace_of fst snd]. fold search.
      destruct (outcome_of search) as [[path|]|e|]; try reflexivity.
      destruct (String.eqb path ""); [reflexivity|].
      rewrite !outcome_of_after.
      apply (proj1 (load_from_any_state rt path st (initial_state Env))).
    + subst r. rewrite (loadDevEnv_uncached rt fuel options st (or_intror Hr)).
      rewrite (loadDevEnv_uncached rt fuel options (initial_state Env) (or_intror Hr)).
      cbv zeta.
      rewrite (findConfigFile_pure rt fuel _ (initial_state Env) st).
      cbn [outcome_of trace_of fst snd]. fold search.
      destruct (outcome_of search) as [[path|]|e|]; try reflexivity.
      destruct (String.eqb path ""); [reflexivity|].
      change (trace_of search ++ trace_of (load_from rt path st) =
              trace_of search ++ trace_of (load_from rt path (initial_state Env))).
      f_equal.
      apply (proj2 (load_from_any_state rt path st (initial_state Env))).
    + intros n ->. destruct Hprefix as [rest Hrest].
      destruct (findConfigFile_first_check rt n (start_dir rt options) st) as [rest' Hfirst].
      fold search in Hfirst. rewrite Hrest, Hfirst. eexists. reflexivity.
    + intros path Hfound Hne. subst r.
      rewrite (loadDevEnv_uncached rt fuel options st (or_intror Hr)).
      cbv zeta. fold search. rewrite Hfound.
      rewrite (proj2 (String.eqb_neq _ _) Hne).
      unfold after, load_from; cbn [trace_of snd].
      destruct (import rt path) as [e|exports]; [now exists []|]. cbv zeta.
      destruct (passes_validation (mod_default exports)); [|now exists []].
      destruct (createDevEnvironment rt (mod_default exports)); eexists; reflexivity.
  - intros env st1 tr1 rt2 fuel2 options2 Hrun Hr2.
    apply loadDevEnv_cached; [|exact Hr2].
    pose proof (loadDevEnv_state rt fuel options st) as H.
    rewrite Hrun in H. exact H.
Qed.

Lemma loadDevEnv_cache_and_reload_witness :
  loadDevEnv Fixture.repo 5 None (Fixture.loaded 7) = (Returned 7, Fixture.loaded 7, []) /\
  (exists rest,
      trace_of (loadDevEnv Fixture.repo 5 (Some {| cwd := None; reload := Some true |})
                           (Fixture.loaded 7)) =
      EvExistsSync "/repo/packages/app/dev.config.ts" :: rest) /\
  loadDevEnv Fixture.bare 0 (Some {| cwd := Some "/elsewhere"; reload := None |})
             {| cachedEnv := Some 3 |} =
  (Returned 3, {| cachedEnv := Some 3 |}, []).
Proof.
  split; [|split].
  - apply (proj1 (loadDevEnv_cache_and_reload nat Fixture.repo 5 None (Fixture.loaded 7)) 7);
      reflexivity.
  - destruct (loadDevEnv_cache_and_reload nat Fixture.repo 5
                (Some {| cwd := None; reload := Some true |}) (Fixture.loaded 7))
      as (_ & Hreload & _).
    destruct (Hreload eq_refl) as (_ & _ & _ & Hfirst & _).
    exact (Hfirst 4 eq_refl).
  - destruct (loadDevEnv_cache_and_reload nat Fixture.repo 5 None (initial_state nat))
      as (_ & _ & Htwice).
    apply (Htwice 3 {| cachedEnv := Some 3 |}
             (trace_of (loadDevEnv Fixture.repo 5 None (initial_state nat))));
      reflexivity.
Defined.

(** C9. With a non-empty slot and no reload requested, [loadDevEnv] with a
    [cwd] option returns the cached environment with an empty trace: the
    directory is never looked at, and the whole run is the same for every
    [cwd], every filesystem and every amount of fuel. *)
Theorem loadDevEnv_cached_ignores_cwd :
  forall (Env : Type) (rt rt' : Runtime Env) (fuel fuel' : nat)
         (d : string) (d' : option string) (rl : option bool)
         (st : ModuleState Env) (env : Env),
    cachedEnv st = Some env ->
    reload_requested (Some {| cwd := Some d; reload := rl |}) = false ->
    loadDevEnv rt fuel (Some {| cwd := Some d; reload := rl |}) st = (Returned env, st, []) /\
    loadDevEnv rt' fuel' (Some {| cwd := d'; reload := rl |}) st =
    loadDevEnv rt fuel (Some {| cwd := Some d; reload := rl |}) st.
Proof.
  intros Env rt rt' fuel fuel' d d' rl st env Hc Hr.
  rewrite (loadDevEnv_cached rt fuel _ st env Hc Hr).
  split; [reflexivity|].
  apply loadDevEnv_cached; [exact Hc | exact Hr].
Qed.

Lemma loadDevEnv_cached_ignores_cwd_witness :
  loadDevEnv Fixture.bare 4 (Some {| cwd := Some "/nowhere"; reload := Some false |})
             (Fixture.loaded 3) = (Returned 3, Fixture.loaded 3, []) /\
  loadDevEnv Fixture.repo 9 (Some {| cwd := Some "/repo"; reload := Some false |})
             (Fixture.loaded 3) =
  loadDevEnv Fixture.bare 4 (Some {| cwd := Some "/nowhere"; reload := Some false |})
             (Fixture.loaded 3).
Proof.
  apply (loadDevEnv_cached_ignores_cwd nat Fixture.bare Fixture.repo 4 9
           "/nowhere" (Some "/repo") (Some false) (Fixture.loaded 3) 3);
    reflexivity.
Defined.

(** C10. [clearDevEnvCache] is total and idempotent: in every state it
    returns (nothing), throws nothing, has no other effect and leaves the
    slot empty; a second call in succession changes nothing. *)
Theorem clearDevEnvCache_idempotent :
  forall (Env : Type) (st : ModuleState Env),
    clearDevEnvCache st = (Returned tt, {| cachedEnv := None |}, []) /\
    clearDevEnvCache (state_of (clearDevEnvCache st)) = clearDevEnvCache st /\
    (clearDevEnvCache ;; clearDevEnvCache) st = clearDevEnvCache st.
Proof.
  intros Env st. repeat split.
Qed.

Lemma clearDevEnvCache_idempotent_witness :
  clearDevEnvCache (Fixture.loaded 3) = (Returned tt, {| cachedEnv := None |}, []) /\
  clearDevEnvCache (state_of (clearDevEnvCache (Fixture.loaded 3))) =
  clearDevEnvCache (Fixture.loaded 3).
Proof.
  destruct (clearDevEnvCache_idempotent nat (Fixture.loaded 3)) as (H1 & H2 & _).
  exact (conj H1 H2).
Defined.

(** C4. A call of [loadDevEnv] that throws, whatever it throws and whether
    or not reload was requested, leaves the slot as it was; the slot changes
    only in a call that returns, and then it holds the returned value. *)
Theorem loadDevEnv_failure_keeps_cache :
  forall (Env : Type) (rt : Runtime Env) (fuel : nat) (options : option Options)
         (st : ModuleState Env),
    (forall e,
        outcome_of (loadDevEnv rt fuel options st) = Thrown e ->
        state_of (loadDevEnv rt fuel options st) = st) /\
    (state_of (loadDevEnv rt fuel options st) <> st ->
     exists env,
       outcome_of (loadDevEnv rt fuel options st) = Returned env /\
       state_of (loadDevEnv rt fuel options st) = {| cachedEnv := Some env |}).
Proof.
  intros Env rt fuel options st.
  pose proof (loadDevEnv_state rt fuel options st) as H.
  split.
  - intros e He. rewrite He in H. exact H.
  - intros Hchanged.
    destruct (outcome_of (loadDevEnv rt fuel options st)) as [env|e|];
      [|contradiction..].
    exists env. split; [reflexivity|].
    destruct (state_of (loadDevEnv rt fuel options st)) as [slot].
    cbn [cachedEnv] in H. now rewrite H.
Qed.

Lemma loadDevEnv_failure_keeps_cache_witness :
  (outcome_of (loadDevEnv Fixture.bare 5 (Some {| cwd := None; reload := Some true |})
                          (Fixture.loaded 7)) = Thrown (Error no_config_message) /\
   state_of (loadDevEnv Fixture.bare 5 (Some {| cwd := None; reload := Some true |})
                        (Fixture.loaded 7)) = Fixture.loaded 7) /\
  (outcome_of (loadDevEnv Fixture.repo_no_services 5
                          (Some {| cwd := None; reload := Some true |})
                          (Fixture.loaded 7)) =
   Thrown (Error (invalid_config_message "/repo/dev.config.ts")) /\
   state_of (loadDevEnv Fixture.repo_no_services 5
                        (Some {| cwd := None; reload := Some true |})
                        (Fixture.loaded 7)) = Fixture.loaded 7).
Proof.
  split; (split; [reflexivity|]).
  - apply (proj1 (loadDevEnv_failure_keeps_cache nat Fixture.bare 5
                    (Some {| cwd := None; reload := Some true |}) (Fixture.loaded 7))
                 (Error no_config_message)).
    reflexivity.
  - apply (proj1 (loadDevEnv_failure_keeps_cache nat Fixture.repo_no_services 5
                    (Some {| cwd := None; reload := Some true |}) (Fixture.loaded 7))
                 (Error (invalid_config_message "/repo/dev.config.ts"))).
    reflexivity.
Defined.

(** C5. [getDevEnv] throws the not-loaded error exactly when the slot is
    empty and otherwise returns the value in the slot; it changes no state
    and has no effect.  After any sequence of calls from the initial state
    the slot holds what the last successful [loadDevEnv] returned, unless
    [clearDevEnvCache] was called since, so that is what [getDevEnv]
    returns; in the initial state and after a clear it throws. *)
Theorem getDevEnv_reads_cache :
  forall (Env : Type),
    (forall st : ModuleState Env,
        getDevEnv st =
        (match cachedEnv st with
         | Some env => Returned env
         | None => Thrown (Error not_loaded_message)
         end, st, [])) /\
    (forall st : ModuleState Env,
        outcome_of (getDevEnv st) = Thrown (Error not_loaded_message) <->
        cachedEnv st = None) /\
    (forall calls : list (Call Env),
        cachedEnv (snd (run_calls calls (initial_state Env))) =
        last_loaded None (fst (run_calls calls (initial_state Env)))) /\
    (forall (rt : Runtime Env) fuel options (st : ModuleState Env) env,
        outcome_of (loadDevEnv rt fuel options st) = Returned env ->
        getDevEnv (state_of (loadDevEnv rt fuel options st)) =
        (Returned env, state_of (loadDevEnv rt fuel options st), [])) /\
    (forall st : ModuleState Env,
        outcome_of (getDevEnv (state_of (clearDevEnvCache st))) =
        Thrown (Error not_loaded_message)) /\
    outcome_of (getDevEnv (initial_state Env)) = Thrown (Error not_loaded_message).
Proof.
  intros Env. split; [|split; [|split; [|split; [|split]]]].
  - intros st. apply getDevEnv_run.
  - intros st. rewrite getDevEnv_run. cbn [outcome_of fst].
    destruct (cachedEnv st); split; intros H; try discriminate; reflexivity.
  - intros calls. apply (run_calls_slot calls (initial_state Env)).
  - intros rt fuel options st env Hout. rewrite getDevEnv_run.
    pose proof (loadDevEnv_state rt fuel options st) as H.
    rewrite Hout in H. now rewrite H.
  - reflexivity.
  - reflexivity.
Qed.

Lemma getDevEnv_reads_cache_witness :
  getDevEnv (state_of (loadDevEnv Fixture.repo 5 None (initial_state nat))) =
  (Returned 3, Fixture.loaded 3, []) /\
  (outcome_of (getDevEnv (initial_state nat)) = Thrown (Error not_loaded_message) <->
   cachedEnv (initial_state nat) = None).
Proof.
  destruct (getDevEnv_reads_cache nat) as (_ & Hiff & _ & Hload & _).
  split.
  - apply (Hload Fixture.repo 5 None (initial_state nat) 3). reflexivity.
  - apply Hiff.
Defined.

(** C2. Let [k] be the nearest directory of the ancestor chain (the start
    directory is number 0) that holds a candidate, and [file] the first
    name of [CONFIG_FILES], in list order, present in it.  Then
    [findConfigFile] returns [join] of that directory and [file]; before
    that it has tested all four candidates of each nearer directory, nearest
    first, and in directory [k] the candidates up to [file], in list order.
    Conversely every path it returns is of this kind.  The list order is
    [dev.config.ts], [dev.config.js], [dev-tools.config.ts],
    [dev-tools.config.js]. *)
Theorem findConfigFile_nearest_first :
  forall (Env : Type) (rt : Runtime Env) (fuel : nat) (dir : string)
         (st : ModuleState Env),
    CONFIG_FILES =
      ["dev.config.ts"; "dev.config.js"; "dev-tools.config.ts"; "dev-tools.config.js"] /\
    (forall k i file,
        (forall j, j < k -> has_config rt (ancestor rt j dir) = false) ->
        first_present rt (ancestor rt k dir) CONFIG_FILES i file ->
        k < fuel ->
        findConfigFile rt fuel dir st =
        (Returned (Some (join rt (ancestor rt k dir) file)), st,
         checks_upto rt k dir
           ++ checks rt (ancestor rt k dir) (firstn (S i) CONFIG_FILES))) /\
    (forall path,
        outcome_of (findConfigFile rt fuel dir st) = Returned (Some path) ->
        exists k i file,
          k < fuel /\
          path = join rt (ancestor rt k dir) file /\
          (forall j, j < k -> has_config rt (ancestor rt j dir) = false) /\
          first_present rt (ancestor rt k dir) CONFIG_FILES i file).
Proof.
  intros Env rt fuel dir st. split; [reflexivity|]. split.
  - intros k i file Hnone Hfirst Hfuel. now apply findConfigFile_finds.
  - intros path Hout. now apply (findConfigFile_returns_nearest rt fuel dir st).
Qed.

Lemma findConfigFile_nearest_first_witness :
  findConfigFile Fixture.repo 5 "/repo/packages/app" (initial_state nat) =
  (Returned (Some "/repo/dev.config.ts"), initial_state nat,
   checks_upto Fixture.repo 2 "/repo/packages/app"
     ++ [EvExistsSync "/repo/dev.config.ts"]).
Proof.
  destruct (findConfigFile_nearest_first nat Fixture.repo 5 "/repo/packages/app"
              (initial_state nat)) as (_ & Hfinds & _).
  apply (Hfinds 2 0 "dev.config.ts").
  - intros [|[|j]] Hj; [reflexivity | reflexivity | lia].
  - split; [reflexivity|]. split; [reflexivity|]. intros i' file' Hlt. lia.
  - lia.
Defined.

(** C6. If no directory of the ancestor chain, up to and including one that
    is its own parent, holds a recognized filename, then [findConfigFile]
    (given fuel for the chain) returns null, and [loadDevEnv], when the
    cache does not answer, throws the config-not-found error, imports
    nothing and leaves the slot alone.  The message tells how to create a
    config file. *)
Theorem no_config_anywhere :
  forall (Env : Type) (rt : Runtime Env) (n : nat) (dir : string) (fuel : nat)
         (st : ModuleState Env),
    (forall k, k <= n -> has_config rt (ancestor rt k dir) = false) ->
    dirname rt (ancestor rt n dir) = ancestor rt n dir ->
    n < fuel ->
    outcome_of (findConfigFile rt fuel dir st) = Returned None /\
    (forall options,
        start_dir rt options = dir ->
        cachedEnv st = None \/ reload_requested options = true ->
        loadDevEnv rt fuel options st =
        (Thrown (Error no_config_message), st, trace_of (findConfigFile rt fuel dir st))) /\
    no_config_message =
      ("No config file found. "
         ++ "Create dev.config.ts with: export default defineDevConfig({ ... })")%string.
Proof.
  intros Env rt n dir fuel st Hnone Hroot Hfuel.
  assert (Hnull : outcome_of (findConfigFile rt fuel dir st) = Returned None).
  { destruct (findConfigFile_returns rt n fuel dir st Hroot Hfuel) as [[path|] Hr];
      [|exact Hr].
    destruct (findConfigFile_returns_nearest rt fuel dir st path Hr)
      as (k & i & file & _ & _ & _ & Hfirst).
    apply first_present_has_config in Hfirst.
    destruct (Nat.le_gt_cases k n) as [Hle|Hgt].
    - rewrite (Hnone k Hle) in Hfirst. discriminate.
    - rewrite (ancestor_root_stays rt n dir Hroot k) in Hfirst by lia.
      rewrite (Hnone n (le_n n)) in Hfirst. discriminate. }
  split; [exact Hnull|]. split; [|reflexivity].
  intros options Hstart Hun.
  rewrite (loadDevEnv_uncached rt fuel options st Hun). cbv zeta.
  rewrite Hstart, Hnull. reflexivity.
Qed.

Lemma no_config_anywhere_witness :
  outcome_of (findConfigFile Fixture.bare 5 "/repo/packages/app" (initial_state nat)) =
  Returned None /\
  outcome_of (loadDevEnv Fixture.bare 5 None (initial_state nat)) =
  Thrown (Error no_config_message).
Proof.
  destruct (no_config_anywhere nat Fixture.bare 3 "/repo/packages/app" 5 (initial_state nat))
    as (Hnull & Hload & _).
  - intros [|[|[|[|k]]]] Hk; try reflexivity. lia.
  - reflexivity.
  - lia.
  - split; [exact Hnull|].
    rewrite (Hload None eq_refl (or_introl eq_refl)). reflexivity.
Defined.

(** C7. Without a match, [findConfigFile] exits only at a directory that
    is its own parent: a null result comes from such a directory, and above
    candidate-free directories that are not their own parent the loop is
    still running after any number of iterations, so no depth bound cuts it
    short.  Under POSIX [dirname] every start string reaches a directory
    that is its own parent within [length + 1] steps, and the search
    returns; fuel beyond [posix_fuel] changes nothing. *)
Theorem findConfigFile_terminates :
  forall (Env : Type) (rt : Runtime Env) (dir : string) (st : ModuleState Env),
    (forall fuel,
        outcome_of (findConfigFile rt fuel dir st) = Returned None ->
        exists k, k < fuel /\
                  dirname rt (ancestor rt k dir) = ancestor rt k dir /\
                  forall j, j <= k -> has_config rt (ancestor rt j dir) = false) /\
    (forall n,
        (forall j, j < n -> has_config rt (ancestor rt j dir) = false) ->
        (forall j, j < n -> dirname rt (ancestor rt j dir) <> ancestor rt j dir) ->
        findConfigFile rt n dir st = (OutOfFuel, st, checks_upto rt n dir)) /\
    ((forall path, dirname rt path = posix_dirname path) ->
     (exists k, k <= String.length dir + 1 /\
                dirname rt (ancestor rt k dir) = ancestor rt k dir) /\
     (exists r, outcome_of (findConfigFile rt (posix_fuel dir) dir st) = Returned r) /\
     (forall fuel, posix_fuel dir <= fuel ->
                   findConfigFile rt fuel dir st =
                   findConfigFile rt (posix_fuel dir) dir st)).
Proof.
  intros Env rt dir st. split; [|split].
  - intros fuel. apply findConfigFile_null_at_root.
  - intros n. apply findConfigFile_still_climbing.
  - intros Hposix. split; [|split].
    + apply (posix_root_reached rt Hposix (String.length dir) dir (le_n _)).
    + apply (posix_findConfigFile_returns rt Hposix).
    + intros fuel Hfuel.
      destruct (posix_findConfigFile_returns rt Hposix dir st) as [r Hr].
      apply (findConfigFile_fuel_irrelevant rt _ fuel dir st r Hr Hfuel).
Qed.

Lemma findConfigFile_terminates_witness :
  findConfigFile Fixture.bare 2 "/repo/packages/app" (initial_state nat) =
  (OutOfFuel, initial_state nat, checks_upto Fixture.bare 2 "/repo/packages/app") /\
  (exists r,
      outcome_of (findConfigFile Fixture.bare (posix_fuel "/repo/packages/app")
                                 "/repo/packages/app" (initial_state nat)) = Returned r).
Proof.
  destruct (findConfigFile_terminates nat Fixture.bare "/repo/packages/app"
              (initial_state nat)) as (_ & Hclimb & Hposix).
  split.
  - apply (Hclimb 2).
    + intros [|[|j]] Hj; [reflexivity | reflexivity | lia].
    + intros [|[|j]] Hj; [discriminate | discriminate | lia].
  - destruct (Hposix (fun path => eq_refl)) as (_ & Hret & _). exact Hret.
Defined.

(** C8. [findConfigFile] never throws and never touches the module state:
    it returns a path that exists, or null, or (in the model) is still
    running; when no candidate exists up to a directory that is its own
    parent the result is the null return value.  Throwing is left to
    [loadDevEnv] and [getDevEnv], which do throw on an empty slot without a
    config file; [clearDevEnvCache] never throws. *)
Theorem findConfigFile_never_raises :
  forall (Env : Type) (rt : Runtime Env) (fuel : nat) (dir : string)
         (st : ModuleState Env),
    (forall e, outcome_of (findConfigFile rt fuel dir st) <> Thrown e) /\
    state_of (findConfigFile rt fuel dir st) = st /\
    (outcome_of (findConfigFile rt fuel dir st) = Returned None \/
     (exists path,
         outcome_of (findConfigFile rt fuel dir st) = Returned (Some path) /\
         existsSync rt path = true) \/
     outcome_of (findConfigFile rt fuel dir st) = OutOfFuel) /\
    (has_config rt dir = false ->
     dirname rt dir = dir ->
     findConfigFile rt (S fuel) dir st = (Returned None, st, checks rt dir CONFIG_FILES) /\
     outcome_of (loadDevEnv rt (S fuel) (Some {| cwd := Some dir; reload := None |})
                            (initial_state Env)) = Thrown (Error no_config_message)) /\
    outcome_of (getDevEnv (initial_state Env)) = Thrown (Error not_loaded_message) /\
    outcome_of (clearDevEnvCache st) = Returned tt.
Proof.
  intros Env rt fuel dir st.
  split; [|split; [|split; [|split; [|split]]]].
  - intros e. apply findConfigFile_never_throws.
  - apply findConfigFile_state.
  - pose proof (findConfigFile_never_throws rt fuel dir st) as Hnever.
    pose proof (findConfigFile_returns_nearest rt fuel dir st) as Hsome.
    destruct (outcome_of (findConfigFile rt fuel dir st)) as [[path|]|e|].
    + right; left. exists path. split; [reflexivity|].
      destruct (Hsome path eq_refl) as (k & i & file & _ & -> & _ & _ & Hex & _).
      exact Hex.
    + now left.
    + now destruct (Hnever e).
    + now right; right.
  - intros Hnone Hroot. split.
    + now apply findConfigFile_root.
    + rewrite (loadDevEnv_uncached rt (S fuel) _ (initial_state Env) (or_introl eq_refl)).
      cbv zeta. cbn [start_dir options_cwd cwd].
      rewrite (findConfigFile_root rt fuel dir _ Hnone Hroot). reflexivity.
  - reflexivity.
  - reflexivity.
Qed.

Lemma findConfigFile_never_raises_witness :
  findConfigFile Fixture.bare 1 "/" (Fixture.loaded 3) =
  (Returned None, Fixture.loaded 3, checks Fixture.bare "/" CONFIG_FILES) /\
  outcome_of (loadDevEnv Fixture.bare 1 (Some {| cwd := Some "/"; reload := None |})
                         (initial_state nat)) = Thrown (Error no_config_message).
Proof.
  destruct (findConfigFile_never_raises nat Fixture.bare 0 "/" (Fixture.loaded 3))
    as (_ & _ & _ & Habsent & _).
  apply Habsent; reflexivity.
Defined.

(** C3, as stated, fails: a default export with [services: {}] is not a
    valid config in the specification's reading (the mapping is empty), yet
    [loadDevEnv] resolves [/repo/dev.config.ts], imports it, hands the
    export to the factory and returns its result instead of throwing the
    invalid-config error. *)
Lemma loadDevEnv_accepts_empty_services :
  spec_valid_config Fixture.empty_services_config = false /\
  outcome_of (findConfigFile Fixture.repo_empty_services 5 "/repo/packages/app"
                             (initial_state nat)) =
  Returned (Some "/repo/dev.config.ts") /\
  import Fixture.repo_empty_services "/repo/dev.config.ts" =
  inr [("default", Fixture.empty_services_config)] /\
  outcome_of (loadDevEnv Fixture.repo_empty_services 5 None (initial_state nat)) =
  Returned 3 /\
  state_of (loadDevEnv Fixture.repo_empty_services 5 None (initial_state nat)) =
  Fixture.loaded 3 /\
  ~ (forall (rt : Runtime nat) fuel options (st : ModuleState nat) path exports,
        cachedEnv st = None \/ reload_requested options = true ->
        outcome_of (findConfigFile rt fuel (start_dir rt options) st) =
        Returned (Some path) ->
        path <> "" ->
        import rt path = inr exports ->
        spec_valid_config (mod_default exports) = false ->
        outcome_of (loadDevEnv rt fuel options st) =
        Thrown (Error (invalid_config_message path))).
Proof.
  repeat (split; [reflexivity|]).
  intros Hclaim.
  specialize (Hclaim Fixture.repo_empty_services 5 None (initial_state nat)
                "/repo/dev.config.ts" [("default", Fixture.empty_services_config)]
                (or_introl eq_refl) eq_refl).
  discriminate Hclaim; [discriminate | reflexivity | reflexivity].
Qed.

(** C3, amended.  When the cache does not answer, a non-empty path is
    resolved and its module is imported, [loadDevEnv] accepts the default
    export exactly when [config?.projectPrefix] and [config?.services] are
    both truthy: it then calls the factory on it, and returns and caches
    what the factory returns (or throws what it throws, slot untouched).
    Otherwise (no default export, a nullish or primitive export, a missing
    or falsy [projectPrefix], a missing or falsy [services]) it throws the
    invalid-config error, whose message contains the path, without calling
    the factory and without touching the slot.  Every config that is valid
    in the specification's reading is accepted; an object is truthy even
    when it is empty. *)
Theorem loadDevEnv_validation :
  forall (Env : Type) (rt : Runtime Env) (fuel : nat) (options : option Options)
         (st : ModuleState Env) (path : string) (exports : JsModule),
    cachedEnv st = None \/ reload_requested options = true ->
    outcome_of (findConfigFile rt fuel (start_dir rt options) st) = Returned (Some path) ->
    path <> "" ->
    import rt path = inr exports ->
    let config := mod_default exports in
    let search := findConfigFile rt fuel (start_dir rt options) st in
    (passes_validation config = true ->
     loadDevEnv rt fuel options st =
     match createDevEnvironment rt config with
     | inr env =>
         (Returned env, {| cachedEnv := Some env |},
          trace_of search ++ [EvImport path; EvCreateDevEnvironment config])
     | inl e =>
         (Thrown e, st,
          trace_of search ++ [EvImport path; EvCreateDevEnvironment config])
     end) /\
    (passes_validation config = false ->
     loadDevEnv rt fuel options st =
     (Thrown (Error (invalid_config_message path)), st,
      trace_of search ++ [EvImport path])) /\
    invalid_config_message path =
      (("Invalid config in " ++ dquote) ++ path
         ++ (dquote ++ ". Use defineDevConfig() and export as default."))%string /\
    (passes_validation config = false <->
     truthy (optional_get config "projectPrefix") = false \/
     truthy (optional_get config "services") = false) /\
    (spec_valid_config config = true -> passes_validation config = true) /\
    passes_validation JsUndefined = false /\
    passes_validation JsNull = false /\
    (forall prefix,
        prefix <> "" ->
        passes_validation
          (JsObject [("projectPrefix", JsString prefix); ("services", JsObject [])]) = true).
Proof.
  intros Env rt fuel options st path exports Hun Hfound Hne Himport config search.
  assert (Hrun : loadDevEnv rt fuel options st = after (trace_of search) (load_from rt path st)).
  { rewrite (loadDevEnv_uncached rt fuel options st Hun). cbv zeta.
    fold search. unfold search at 1. rewrite Hfound.
    now rewrite (proj2 (String.eqb_neq _ _) Hne). }
  split; [|split; [|split; [|split; [|split; [|split; [|split]]]]]].
  - intros Hpass. rewrite Hrun. unfold load_from. rewrite Himport. cbv zeta.
    fold config. rewrite Hpass.
    destruct (createDevEnvironment rt config); reflexivity.
  - intros Hfail. rewrite Hrun. unfold load_from. rewrite Himport. cbv zeta.
    fold config. rewrite Hfail. reflexivity.
  - reflexivity.
  - unfold passes_validation. apply andb_false_iff.
  - unfold spec_valid_config, passes_validation.
    destruct (optional_get config "projectPrefix") as [| | | | |prefix|]; try discriminate.
    destruct (optional_get config "services") as [| | | | | |services]; try discriminate.
    cbn [truthy]. intros H. apply andb_true_iff in H. destruct H as [H _].
    now rewrite H.
  - reflexivity.
  - reflexivity.
  - intros prefix Hprefix. unfold passes_validation. cbn.
    now rewrite (proj2 (String.eqb_neq _ _) Hprefix).
Qed.

Lemma loadDevEnv_validation_witness :
  loadDevEnv Fixture.repo_no_services 5 None (initial_state nat) =
  (Thrown (Error (invalid_config_message "/repo/dev.config.ts")), initial_state nat,
   trace_of (findConfigFile Fixture.repo_no_services 5 "/repo/packages/app"
                            (initial_state nat))
     ++ [EvImport "/repo/dev.config.ts"]) /\
  loadDevEnv Fixture.repo 5 None (initial_state nat) =
  (Returned 3, Fixture.loaded 3,
   trace_of (findConfigFile Fixture.repo 5 "/repo/packages/app" (initial_state nat))
     ++ [EvImport "/repo/dev.config.ts"; EvCreateDevEnvironment Fixture.good_config]).
Proof.
  split.
  - destruct (loadDevEnv_validation nat Fixture.repo_no_services 5 None (initial_state nat)
                "/repo/dev.config.ts" [("default", Fixture.no_services_config)])
      as (_ & Hreject & _);
      [left; reflexivity | reflexivity | discriminate | reflexivity |].
    apply Hreject. reflexivity.
  - destruct (loadDevEnv_validation nat Fixture.repo 5 None (initial_state nat)
                "/repo/dev.config.ts" [("default", Fixture.good_config)])
      as (Haccept & _);
      [left; reflexivity | reflexivity | discriminate | reflexivity |].
    apply Haccept. reflexivity.
Defined.

(** * Further properties of the search *)

Section SearchTrace.

Context {Env : Type}.
Variable rt : Runtime Env.

Lemma tested_incl paths : forall q, In q (tested rt paths) -> In q paths.
Proof.
  induction paths as [|p ps IH]; intros q Hq; [exact Hq|].
  cbn [tested] in Hq. destruct Hq as [<-|Hq]; [now left|].
  destruct (existsSync rt p); [destruct Hq | right; now apply IH].
Qed.

Lemma tested_length paths : List.length (tested rt paths) <= List.length paths.
Proof.
  induction paths as [|p ps IH]; cbn [tested List.length]; [lia|].
  destruct (existsSync rt p); cbn [List.length]; lia.
Qed.

(** An early-exit scan that finds a path tested it last, after paths that
    do not exist. *)
Lemma tested_until_found paths : forall p,
  find (existsSync rt) paths = Some p ->
  exists absent,
    tested rt paths = absent ++ [p] /\
    existsSync rt p = true /\
    Forall (fun q => existsSync rt q = false) absent.
Proof.
  induction paths as [|q qs IH]; intros p Hfind; [discriminate|].
  cbn [find tested] in *. destruct (existsSync rt q) eqn:Hq.
  - injection Hfind as <-. exists []. repeat split; [exact Hq | constructor].
  - destruct (IH p Hfind) as (absent & Ht & Hp & Habs).
    exists (q :: absent). rewrite Ht. repeat split; [exact Hp|].
    constructor; assumption.
Qed.

Lemma absent_all paths :
  existsb (existsSync rt) paths = false ->
  Forall (fun q => existsSync rt q = false) paths.
Proof.
  induction paths as [|q qs IH]; cbn [existsb]; intros H; constructor.
  - now destruct (existsSync rt q).
  - apply IH. now destruct (existsSync rt q).
Qed.

Lemma candidate_of_dir dir q :
  In q (candidates rt dir CONFIG_FILES) ->
  exists file, In file CONFIG_FILES /\ q = join rt dir file.
Proof.
  unfold candidates. intros Hq. apply in_map_iff in Hq.
  destruct Hq as (file & <- & Hfile). now exists file.
Qed.

(** The shape of a search trace: existence checks only, at most four per
    iteration, each on a candidate name in a directory of the chain; a
    returned path was tested last and exists, everything tested before it
    does not. *)
Lemma findConfigFile_trace_shape fuel : forall dir (st : ModuleState Env),
  exists paths,
    trace_of (findConfigFile rt fuel dir st) = map EvExistsSync paths /\
    List.length paths <= 4 * fuel /\
    (forall q, In q paths ->
       exists k file,
         k < fuel /\ In file CONFIG_FILES /\ q = join rt (ancestor rt k dir) file) /\
    match outcome_of (findConfigFile rt fuel dir st) with
    | Returned (Some p) =>
        exists absent,
          paths = absent ++ [p] /\
          existsSync rt p = true /\
          Forall (fun q => existsSync rt q = false) absent
    | _ => Forall (fun q => existsSync rt q = false) paths
    end.
Proof.
  induction fuel as [|fuel IH]; intros dir st.
  - exists []. repeat split; [cbn; lia | intros q [] | constructor].
  - destruct (find (existsSync rt) (candidates rt dir CONFIG_FILES)) as [p|] eqn:Hfind.
    + rewrite (findConfigFile_hit rt fuel dir p st Hfind).
      exists (tested rt (candidates rt dir CONFIG_FILES)).
      split; [reflexivity|]. split; [|split].
      * pose proof (tested_length (candidates rt dir CONFIG_FILES)) as Hlen.
        unfold candidates in Hlen at 2. rewrite length_map in Hlen.
        cbn [CONFIG_FILES List.length] in Hlen. lia.
      * intros q Hq. apply tested_incl, candidate_of_dir in Hq.
        destruct Hq as (file & Hfile & ->). exists 0, file.
        repeat split; [lia | exact Hfile].
      * cbn [outcome_of fst]. now apply tested_until_found.
    + apply find_none_has_config in Hfind.
      destruct (String.eqb_spec (dirname rt dir) dir) as [Hhere|Hup].
      * rewrite (findConfigFile_root rt fuel dir st Hfind Hhere).
        exists (candidates rt dir CONFIG_FILES).
        split; [reflexivity|]. split; [|split].
        -- unfold candidates. rewrite length_map. cbn [CONFIG_FILES List.length]. lia.
        -- intros q Hq. apply candidate_of_dir in Hq.
           destruct Hq as (file & Hfile & ->). exists 0, file.
           repeat split; [lia | exact Hfile].
        -- cbn [outcome_of fst]. now apply absent_all.
      * rewrite (findConfigFile_up rt fuel dir st Hfind Hup).
        destruct (IH (dirname rt dir) st) as (paths & Htr & Hlen & Hin & Hout).
        exists (candidates rt dir CONFIG_FILES ++ paths).
        split; [|split; [|split]].
        -- unfold after, checks. cbn [trace_of snd].
           fold (trace_of (findConfigFile rt fuel (dirname rt dir) st)).
           rewrite Htr, map_app. reflexivity.
        -- rewrite length_app. unfold candidates. rewrite length_map.
           cbn [CONFIG_FILES List.length]. lia.
        -- intros q Hq. apply in_app_or in Hq. destruct Hq as [Hq|Hq].
           ++ apply candidate_of_dir in Hq. destruct Hq as (file & Hfile & ->).
              exists 0, file. repeat split; [lia | exact Hfile].
           ++ destruct (Hin q Hq) as (k & file & Hk & Hfile & ->).
              exists (S k), file. repeat split; [lia | exact Hfile].
        -- rewrite outcome_of_after.
           destruct (outcome_of (findConfigFile rt fuel (dirname rt dir) st))
             as [[p|]|e|].
           ++ destruct Hout as (absent & -> & Hp & Habs).
              exists (candidates rt dir CONFIG_FILES ++ absent).
              split; [now rewrite app_assoc|]. split; [exact Hp|].
              apply Forall_app. split; [now apply absent_all | exact Habs].
           ++ apply Forall_app. split; [now apply absent_all | exact Hout].
           ++ apply Forall_app. split; [now apply absent_all | exact Hout].
           ++ apply Forall_app. split; [now apply absent_all | exact Hout].
Qed.

End SearchTrace.

(** X1. A search only tests for existence, at most four paths per
    iteration, each a candidate name joined to a directory of the ancestor
    chain.  A path it returns exists and was the last one tested; every
    path tested before it, and every path tested by a search that returns
    null, does not exist. *)
Theorem findConfigFile_checks_only :
  forall (Env : Type) (rt : Runtime Env) (fuel : nat) (dir : string)
         (st : ModuleState Env),
  exists paths,
    trace_of (findConfigFile rt fuel dir st) = map EvExistsSync paths /\
    List.length paths <= 4 * fuel /\
    (forall q, In q paths ->
       exists k file,
         k < fuel /\ In file CONFIG_FILES /\ q = join rt (ancestor rt k dir) file) /\
    match outcome_of (findConfigFile rt fuel dir st) with
    | Returned (Some p) =>
        exists absent,
          paths = absent ++ [p] /\
          existsSync rt p = true /\
          Forall (fun q => existsSync rt q = false) absent
    | _ => Forall (fun q => existsSync rt q = false) paths
    end.
Proof.
  intros Env rt fuel dir st. apply findConfigFile_trace_shape.
Qed.

Lemma findConfigFile_checks_only_witness :
  exists paths,
    trace_of (findConfigFile Fixture.repo 5 "/repo/packages/app" (initial_state nat)) =
    map EvExistsSync paths /\
    List.length paths <= 20.
Proof.
  destruct (findConfigFile_checks_only nat Fixture.repo 5 "/repo/packages/app"
              (initial_state nat)) as (paths & Htr & Hlen & _).
  exists paths. split; [exact Htr | exact Hlen].
Defined.

Section SearchSteps.

Context {Env : Type}.
Variable rt : Runtime Env.

(** One iteration of the loop, all cases at once. *)
Lemma findConfigFile_step fuel dir (st : ModuleState Env) :
  findConfigFile rt (S fuel) dir st =
  match find (existsSync rt) (candidates rt dir CONFIG_FILES) with
  | Some p =>
      (Returned (Some p), st, map EvExistsSync (tested rt (candidates rt dir CONFIG_FILES)))
  | None =>
      if String.eqb (dirname rt dir) dir
      then (Returned None, st, checks rt dir CONFIG_FILES)
      else after (checks rt dir CONFIG_FILES) (findConfigFile rt fuel (dirname rt dir) st)
  end.
Proof.
  destruct (find (existsSync rt) (candidates rt dir CONFIG_FILES)) as [p|] eqn:Hfind.
  - now apply findConfigFile_hit.
  - apply find_none_has_config in Hfind.
    destruct (String.eqb_spec (dirname rt dir) dir) as [Hhere|Hup].
    + now apply findConfigFile_root.
    + now apply findConfigFile_up.
Qed.

(** A directory without a candidate resolves to what the directory [k]
    levels up resolves to. *)
Lemma findConfigFile_outcome_from_ancestor k : forall fuel dir (st : ModuleState Env),
  (forall j, j < k -> has_config rt (ancestor rt j dir) = false) ->
  0 < fuel ->
  outcome_of (findConfigFile rt (k + fuel) dir st) =
  outcome_of (findConfigFile rt fuel (ancestor rt k dir) st).
Proof.
  induction k as [|k IH]; intros fuel dir st Hnone Hfuel; [reflexivity|].
  assert (Hdir : has_config rt dir = false) by (apply (Hnone 0); lia).
  destruct (String.eqb_spec (dirname rt dir) dir) as [Hhere|Hup].
  - rewrite (ancestor_root_stays rt 0 dir Hhere (S k)) by lia. cbn [ancestor].
    change (S k + fuel) with (S (k + fuel)).
    rewrite (findConfigFile_root rt (k + fuel) dir st Hdir Hhere).
    destruct fuel as [|fuel]; [lia|].
    now rewrite (findConfigFile_root rt fuel dir st Hdir Hhere).
  - change (S k + fuel) with (S (k + fuel)).
    rewrite (findConfigFile_up rt (k + fuel) dir st Hdir Hup), outcome_of_after.
    apply IH; [|exact Hfuel].
    intros j Hj. apply (Hnone (S j)). lia.
Qed.

End SearchSteps.

Lemma find_agree (f g : string -> bool) paths :
  (forall q, In q paths -> f q = g q) ->
  find f paths = find g paths.
Proof.
  induction paths as [|p ps IH]; intros Hfg; [reflexivity|].
  cbn [find]. rewrite (Hfg p (or_introl eq_refl)).
  destruct (g p); [reflexivity|]. apply IH. intros q Hq. apply Hfg. now right.
Qed.

Lemma tested_agree {Env : Type} (rt rt' : Runtime Env) paths :
  (forall q, In q paths -> existsSync rt' q = existsSync rt q) ->
  tested rt' paths = tested rt paths.
Proof.
  induction paths as [|p ps IH]; intros Hfg; [reflexivity|].
  cbn [tested]. rewrite (Hfg p (or_introl eq_refl)).
  destruct (existsSync rt p); [reflexivity|]. f_equal.
  apply IH. intros q Hq. apply Hfg. now right.
Qed.

Lemma findConfigFile_frame {Env : Type} (rt : Runtime Env) (present : string -> bool) fuel :
  forall dir (st : ModuleState Env),
    (forall k file,
        k < fuel -> In file CONFIG_FILES ->
        present (join rt (ancestor rt k dir) file) =
        existsSync rt (join rt (ancestor rt k dir) file)) ->
    findConfigFile (with_existsSync rt present) fuel dir st = findConfigFile rt fuel dir st.
Proof.
  induction fuel as [|fuel IH]; intros dir st Hagree; [reflexivity|].
  assert (Hhere : forall q, In q (candidates rt dir CONFIG_FILES) ->
                            present q = existsSync rt q).
  { intros q Hq. apply candidate_of_dir in Hq. destruct Hq as (file & Hfile & ->).
    apply (Hagree 0 file); [lia | exact Hfile]. }
  rewrite !findConfigFile_step.
  change (candidates (with_existsSync rt present) dir CONFIG_FILES)
    with (candidates rt dir CONFIG_FILES).
  change (existsSync (with_existsSync rt present)) with present.
  change (dirname (with_existsSync rt present) dir) with (dirname rt dir).
  change (checks (with_existsSync rt present) dir CONFIG_FILES)
    with (checks rt dir CONFIG_FILES).
  rewrite (find_agree present (existsSync rt) _ Hhere).
  rewrite (tested_agree rt (with_existsSync rt present) _ Hhere).
  rewrite (IH (dirname rt dir) st); [reflexivity|].
  intros k file Hk Hfile. apply (Hagree (S k) file); [lia | exact Hfile].
Qed.

(** X2. A directory that holds no candidate resolves to whatever the
    directory above it resolves to, and so on up the chain: with no
    candidate in the first [k] directories, the search from [dir] has the
    outcome of the search from its [k]-th ancestor.  Two directories that
    meet at a common ancestor, with no candidate below it, resolve to the
    same path. *)
Theorem findConfigFile_inherits :
  forall (Env : Type) (rt : Runtime Env) (k fuel : nat) (dir : string)
         (st : ModuleState Env),
    (forall j, j < k -> has_config rt (ancestor rt j dir) = false) ->
    0 < fuel ->
    outcome_of (findConfigFile rt (k + fuel) dir st) =
    outcome_of (findConfigFile rt fuel (ancestor rt k dir) st) /\
    (forall k' dir',
        (forall j, j < k' -> has_config rt (ancestor rt j dir') = false) ->
        ancestor rt k' dir' = ancestor rt k dir ->
        outcome_of (findConfigFile rt (k' + fuel) dir' st) =
        outcome_of (findConfigFile rt (k + fuel) dir st)).
Proof.
  intros Env rt k fuel dir st Hnone Hfuel.
  pose proof (findConfigFile_outcome_from_ancestor rt k fuel dir st Hnone Hfuel) as Hdir.
  split; [exact Hdir|].
  intros k' dir' Hnone' Hmeet.
  rewrite (findConfigFile_outcome_from_ancestor rt k' fuel dir' st Hnone' Hfuel).
  now rewrite Hmeet, Hdir.
Qed.

Lemma findConfigFile_inherits_witness :
  outcome_of (findConfigFile Scenario.monorepo (2 + 3) "/repo/packages/api"
                             (initial_state nat)) =
  outcome_of (findConfigFile Scenario.monorepo 3 "/repo" (initial_state nat)) /\
  outcome_of (findConfigFile Scenario.monorepo (2 + 3) "/repo/packages/web"
                             (initial_state nat)) =
  outcome_of (findConfigFile Scenario.monorepo (2 + 3) "/repo/packages/api"
                             (initial_state nat)).
Proof.
  destruct (findConfigFile_inherits nat Scenario.monorepo 2 3 "/repo/packages/api"
              (initial_state nat)) as (Hup & Hsiblings).
  - intros [|[|j]] Hj; [reflexivity | reflexivity | lia].
  - lia.
  - split; [exact Hup|].
    apply (Hsiblings 2 "/repo/packages/web"); [|reflexivity].
    intros [|[|j]] Hj; [reflexivity | reflexivity | lia].
Defined.

(** X3. The search depends on the disk only through the candidate paths of
    the directories on the chain: if another disk agrees with this one on
    those paths, whatever else differs, the search runs identically (same
    result, same checks). *)
Theorem findConfigFile_sees_only_candidates :
  forall (Env : Type) (rt : Runtime Env) (present : string -> bool) (fuel : nat)
         (dir : string) (st : ModuleState Env),
    (forall k file,
        k < fuel -> In file CONFIG_FILES ->
        present (join rt (ancestor rt k dir) file) =
        existsSync rt (join rt (ancestor rt k dir) file)) ->
    findConfigFile (with_existsSync rt present) fuel dir st = findConfigFile rt fuel dir st.
Proof.
  intros Env rt present fuel dir st Hagree. now apply findConfigFile_frame.
Qed.

Lemma findConfigFile_sees_only_candidates_witness :
  findConfigFile (with_existsSync Fixture.repo Scenario.repo_with_noise) 3
                 "/repo/packages/app" (initial_state nat) =
  findConfigFile Fixture.repo 3 "/repo/packages/app" (initial_state nat).
Proof.
  apply (findConfigFile_sees_only_candidates nat Fixture.repo Scenario.repo_with_noise 3
           "/repo/packages/app" (initial_state nat)).
  intros [|[|[|k]]] file Hk Hfile; try lia;
    cbn [CONFIG_FILES In] in Hfile;
    repeat (destruct Hfile as [<-|Hfile]; [reflexivity|]); destruct Hfile.
Defined.

(** * Further properties of the loader *)

Section LoadRuns.

Context {Env : Type}.
Variable rt : Runtime Env.

(** The three ways a call of [loadDevEnv] can go: the cache answers; the
    search ends without a path to import; a path is imported. *)
Lemma loadDevEnv_run_cases fuel options (st : ModuleState Env) :
  (exists env,
      cachedEnv st = Some env /\ reload_requested options = false /\
      loadDevEnv rt fuel options st = (Returned env, st, [])) \/
  ((cachedEnv st = None \/ reload_requested options = true) /\
   trace_of (loadDevEnv rt fuel options st) =
   trace_of (findConfigFile rt fuel (start_dir rt options) st) /\
   forall env, outcome_of (loadDevEnv rt fuel options st) <> Returned env) \/
  ((cachedEnv st = None \/ reload_requested options = true) /\
   exists path,
     outcome_of (findConfigFile rt fuel (start_dir rt options) st) = Returned (Some path) /\
     path <> "" /\
     loadDevEnv rt fuel options st =
     after (trace_of (findConfigFile rt fuel (start_dir rt options) st))
           (load_from rt path st)).
Proof.
  destruct (loadDevEnv_cases options st) as [(env & Hc & Hr)|Hun].
  - left. exists env. split; [exact Hc|]. split; [exact Hr|].
    now apply loadDevEnv_cached.
  - right. rewrite (loadDevEnv_uncached rt fuel options st Hun). cbv zeta.
    destruct (outcome_of (findConfigFile rt fuel (start_dir rt options) st))
      as [[path|]|e|].
    + destruct (String.eqb_spec path "") as [Hempty|Hne].
      * left. split; [exact Hun|]. split; [reflexivity | discriminate].
      * right. split; [exact Hun|]. exists path. now repeat split.
    + left. split; [exact Hun|]. split; [reflexivity | discriminate].
    + left. split; [exact Hun|]. split; [reflexivity | discriminate].
    + left. split; [exact Hun|]. split; [reflexivity | discriminate].
Qed.

(** The runs of the tail, listed. *)
Lemma load_from_cases path (st : ModuleState Env) :
  (exists e, import rt path = inl e /\
             load_from rt path st = (Thrown e, st, [EvImport path])) \/
  (exists exports,
      import rt path = inr exports /\
      passes_validation (mod_default exports) = false /\
      load_from rt path st =
      (Thrown (Error (invalid_config_message path)), st, [EvImport path])) \/
  (exists exports,
      import rt path = inr exports /\
      passes_validation (mod_default exports) = true /\
      ((exists e,
           createDevEnvironment rt (mod_default exports) = inl e /\
           load_from rt path st =
           (Thrown e, st, [EvImport path; EvCreateDevEnvironment (mod_default exports)])) \/
       (exists env,
           createDevEnvironment rt (mod_default exports) = inr env /\
           load_from rt path st =
           (Returned env, {| cachedEnv := Some env |},
            [EvImport path; EvCreateDevEnvironment (mod_default exports)])))).
Proof.
  unfold load_from.
  destruct (import rt path) as [e|exports]; [left; now exists e|]. right. cbv zeta.
  destruct (passes_validation (mod_default exports)) eqn:Hpass.
  - right. exists exports. split; [reflexivity|]. split; [exact Hpass|].
    destruct (createDevEnvironment rt (mod_default exports)) as [e|env].
    + left. now exists e.
    + right. now exists env.
  - left. exists exports. split; [reflexivity|]. split; [exact Hpass | reflexivity].
Qed.

(** A search trace holds no import and no factory call. *)
Lemma findConfigFile_trace_no_import fuel dir (st : ModuleState Env) ev :
  In ev (trace_of (findConfigFile rt fuel dir st)) ->
  exists q, ev = EvExistsSync q.
Proof.
  destruct (findConfigFile_trace_shape rt fuel dir st) as (paths & -> & _).
  intros Hin. apply in_map_iff in Hin. destruct Hin as (q & <- & _). now exists q.
Qed.

(** A path that the search returns is in its trace, and exists. *)
Lemma findConfigFile_returned_checked fuel dir (st : ModuleState Env) path :
  outcome_of (findConfigFile rt fuel dir st) = Returned (Some path) ->
  existsSync rt path = true /\
  In (EvExistsSync path) (trace_of (findConfigFile rt fuel dir st)).
Proof.
  intros Hout.
  destruct (findConfigFile_trace_shape rt fuel dir st) as (paths & Htr & _ & _ & Hshape).
  rewrite Hout in Hshape. destruct Hshape as (absent & -> & Hex & _).
  split; [exact Hex|]. rewrite Htr. apply in_map, in_or_app. right. now left.
Qed.

(** When the cache does not answer, outcome and trace are the same in
    every state of the slot. *)
Lemma loadDevEnv_uncached_any_state fuel options (st st' : ModuleState Env) :
  cachedEnv st = None \/ reload_requested options = true ->
  cachedEnv st' = None \/ reload_requested options = true ->
  outcome_of (loadDevEnv rt fuel options st) = outcome_of (loadDevEnv rt fuel options st') /\
  trace_of (loadDevEnv rt fuel options st) = trace_of (loadDevEnv rt fuel options st').
Proof.
  intros Hun Hun'.
  rewrite (loadDevEnv_uncached rt fuel options st Hun).
  rewrite (loadDevEnv_uncached rt fuel options st' Hun'). cbv zeta.
  rewrite (findConfigFile_pure rt fuel (start_dir rt options) st' st).
  cbn [outcome_of trace_of fst snd].
  fold (outcome_of (findConfigFile rt fuel (start_dir rt options) st)).
  fold (trace_of (findConfigFile rt fuel (start_dir rt options) st)).
  destruct (outcome_of (findConfigFile rt fuel (start_dir rt options) st))
    as [[path|]|e|]; try (split; reflexivity).
  destruct (String.eqb path ""); [split; reflexivity|].
  destruct (load_from_any_state rt path st st') as [Ho Ht].
  split.
  - rewrite !outcome_of_after. exact Ho.
  - unfold after. cbn [trace_of snd].
    fold (trace_of (load_from rt path st)). fold (trace_of (load_from rt path st')).
    now rewrite Ht.
Qed.

End LoadRuns.

Lemma load_from_trace {Env : Type} (rt : Runtime Env) path (st : ModuleState Env) :
  trace_of (load_from rt path st) = [EvImport path] \/
  exists exports,
    import rt path = inr exports /\
    passes_validation (mod_default exports) = true /\
    trace_of (load_from rt path st) =
    [EvImport path; EvCreateDevEnvironment (mod_default exports)].
Proof.
  destruct (load_from_cases rt path st)
    as [(e & _ & ->) | [(exports & _ & _ & ->) | (exports & Him & Hpass & Hrun)]].
  - now left.
  - now left.
  - right. exists exports. split; [exact Him|]. split; [exact Hpass|].
    destruct Hrun as [(e & _ & ->)|(env & _ & ->)]; reflexivity.
Qed.

Lemma trace_of_after {Env A : Type} tr (r : Outcome A * ModuleState Env * list Event) :
  trace_of (after tr r) = tr ++ trace_of r.
Proof. reflexivity. Qed.

(** What passes the validation is an object. *)
Lemma passes_validation_object config :
  passes_validation config = true ->
  exists props,
    config = JsObject props /\
    truthy (lookup_prop "projectPrefix" props) = true /\
    truthy (lookup_prop "services" props) = true.
Proof.
  unfold passes_validation. destruct config as [| | | | | |props]; try discriminate.
  cbn [optional_get]. intros H. apply andb_true_iff in H. now exists props.
Qed.

(** X4. [loadDevEnv] imports at most one path per call, and only the path
    the search of this very call returned: a path whose existence it has
    just tested and found true.  The import comes after all existence
    checks, and the only thing that can follow it is one factory call. *)
Theorem loadDevEnv_imports_checked_path :
  forall (Env : Type) (rt : Runtime Env) (fuel : nat) (options : option Options)
         (st : ModuleState Env) (path : string),
    In (EvImport path) (trace_of (loadDevEnv rt fuel options st)) ->
    outcome_of (findConfigFile rt fuel (start_dir rt options) st) = Returned (Some path) /\
    existsSync rt path = true /\
    In (EvExistsSync path) (trace_of (findConfigFile rt fuel (start_dir rt options) st)) /\
    exists tail,
      trace_of (loadDevEnv rt fuel options st) =
      trace_of (findConfigFile rt fuel (start_dir rt options) st) ++ EvImport path :: tail /\
      (tail = [] \/ exists config, tail = [EvCreateDevEnvironment config]).
Proof.
  intros Env rt fuel options st path Hin.
  destruct (loadDevEnv_run_cases rt fuel options st)
    as [(env & _ & _ & Hrun) | [(_ & Htr & _) | (_ & found & Hout & _ & Hrun)]].
  - rewrite Hrun in Hin. destruct Hin.
  - rewrite Htr in Hin.
    apply findConfigFile_trace_no_import in Hin. destruct Hin as [q Hq]. discriminate.
  - rewrite Hrun, trace_of_after in Hin |- *.
    assert (Hsame : found = path /\
                    exists tail,
                      trace_of (load_from rt found st) = EvImport found :: tail /\
                      (tail = [] \/ exists config, tail = [EvCreateDevEnvironment config])).
    { apply in_app_or in Hin. destruct Hin as [Hin|Hin].
      - apply findConfigFile_trace_no_import in Hin. destruct Hin as [q Hq]. discriminate.
      - destruct (load_from_trace rt found st) as [Ht|(exports & _ & _ & Ht)];
          rewrite Ht in Hin |- *.
        + destruct Hin as [Heq|[]]. injection Heq as ->.
          split; [reflexivity|]. exists []. split; [reflexivity | now left].
        + destruct Hin as [Heq|[Heq|[]]]; [|discriminate]. injection Heq as ->.
          split; [reflexivity|]. eexists. split; [reflexivity|]. right. eexists. reflexivity. }
    destruct Hsame as (-> & tail & Htail & Hshape).
    destruct (findConfigFile_returned_checked rt fuel _ st path Hout) as [Hex Hchecked].
    split; [exact Hout|]. split; [exact Hex|]. split; [exact Hchecked|].
    exists tail. rewrite Htail. split; [reflexivity | exact Hshape].
Qed.

Lemma loadDevEnv_imports_checked_path_witness :
  existsSync Fixture.repo_no_services "/repo/dev.config.ts" = true /\
  In (EvExistsSync "/repo/dev.config.ts")
     (trace_of (findConfigFile Fixture.repo_no_services 5
                  (start_dir Fixture.repo_no_services None) (initial_state nat))).
Proof.
  destruct (loadDevEnv_imports_checked_path nat Fixture.repo_no_services 5 None
              (initial_state nat) "/repo/dev.config.ts") as (_ & Hex & Hin & _).
  - cbn. tauto.
  - split; [exact Hex | exact Hin].
Defined.

(** X5. The factory is called at most once per call of [loadDevEnv], last
    of all effects, and what it receives is the default export of the
    module imported in this call: an object whose [projectPrefix] and
    [services] are both truthy.  It never sees [undefined], [null], a
    primitive, or an object that failed the check. *)
Theorem createDevEnvironment_gets_validated_export :
  forall (Env : Type) (rt : Runtime Env) (fuel : nat) (options : option Options)
         (st : ModuleState Env) (config : JsValue),
    In (EvCreateDevEnvironment config) (trace_of (loadDevEnv rt fuel options st)) ->
    exists path exports props,
      outcome_of (findConfigFile rt fuel (start_dir rt options) st) = Returned (Some path) /\
      import rt path = inr exports /\
      config = mod_default exports /\
      config = JsObject props /\
      truthy (lookup_prop "projectPrefix" props) = true /\
      truthy (lookup_prop "services" props) = true /\
      trace_of (loadDevEnv rt fuel options st) =
      trace_of (findConfigFile rt fuel (start_dir rt options) st)
        ++ [EvImport path; EvCreateDevEnvironment config].
Proof.
  intros Env rt fuel options st config Hin.
  destruct (loadDevEnv_run_cases rt fuel options st)
    as [(env & _ & _ & Hrun) | [(_ & Htr & _) | (_ & path & Hout & _ & Hrun)]].
  - rewrite Hrun in Hin. destruct Hin.
  - rewrite Htr in Hin.
    apply findConfigFile_trace_no_import in Hin. destruct Hin as [q Hq]. discriminate.
  - rewrite Hrun, trace_of_after in Hin |- *.
    apply in_app_or in Hin. destruct Hin as [Hin|Hin].
    + apply findConfigFile_trace_no_import in Hin. destruct Hin as [q Hq]. discriminate.
    + destruct (load_from_trace rt path st) as [Ht|(exports & Him & Hpass & Ht)];
        rewrite Ht in Hin |- *.
      * destruct Hin as [Heq|[]]. discriminate.
      * destruct Hin as [Heq|[Heq|[]]]; [discriminate|]. injection Heq as <-.
        destruct (passes_validation_object _ Hpass) as (props & Hobj & Hprefix & Hservices).
        exists path, exports, props. now repeat split.
Qed.

Lemma createDevEnvironment_gets_validated_export_witness :
  exists props,
    Fixture.empty_services_config = JsObject props /\
    truthy (lookup_prop "services" props) = true.
Proof.
  destruct (createDevEnvironment_gets_validated_export nat Fixture.repo_empty_services 5 None
              (initial_state nat) Fixture.empty_services_config)
    as (path & exports & props & _ & _ & _ & Hobj & _ & Hservices & _).
  - cbn. tauto.
  - exists props. split; [exact Hobj | exact Hservices].
Defined.

(** X6. [loadDevEnv] catches nothing.  If the import of the resolved path
    rejects, the call throws that very value, not an invalid-config error,
    and the factory is not called; if the factory throws on a config that
    passed the check, the call throws that very value.  Either way the slot
    is left as it was. *)
Theorem loadDevEnv_propagates_collaborator_errors :
  forall (Env : Type) (rt : Runtime Env) (fuel : nat) (options : option Options)
         (st : ModuleState Env) (path : string),
    cachedEnv st = None \/ reload_requested options = true ->
    outcome_of (findConfigFile rt fuel (start_dir rt options) st) = Returned (Some path) ->
    path <> "" ->
    (forall e,
        import rt path = inl e ->
        loadDevEnv rt fuel options st =
        (Thrown e, st,
         trace_of (findConfigFile rt fuel (start_dir rt options) st) ++ [EvImport path])) /\
    (forall exports e,
        import rt path = inr exports ->
        passes_validation (mod_default exports) = true ->
        createDevEnvironment rt (mod_default exports) = inl e ->
        loadDevEnv rt fuel options st =
        (Thrown e, st,
         trace_of (findConfigFile rt fuel (start_dir rt options) st)
           ++ [EvImport path; EvCreateDevEnvironment (mod_default exports)])).
Proof.
  intros Env rt fuel options st path Hun Hout Hne.
  assert (Hrun : loadDevEnv rt fuel options st =
                 after (trace_of (findConfigFile rt fuel (start_dir rt options) st))
                       (load_from rt path st)).
  { rewrite (loadDevEnv_uncached rt fuel options st Hun). cbv zeta.
    rewrite Hout. now rewrite (proj2 (String.eqb_neq _ _) Hne). }
  split.
  - intros e Him. rewrite Hrun. unfold load_from. now rewrite Him.
  - intros exports e Him Hpass Hcreate. rewrite Hrun. unfold load_from.
    rewrite Him. cbv zeta. now rewrite Hpass, Hcreate.
Qed.

Lemma loadDevEnv_propagates_collaborator_errors_witness :
  outcome_of (loadDevEnv Scenario.repo_broken_import 5
                (Some {| cwd := None; reload := Some true |}) (Fixture.loaded 7)) =
  Thrown (Foreign "SyntaxError: Unexpected token") /\
  state_of (loadDevEnv Scenario.repo_broken_import 5
              (Some {| cwd := None; reload := Some true |}) (Fixture.loaded 7)) =
  Fixture.loaded 7 /\
  outcome_of (loadDevEnv Scenario.repo_numeric_prefix 5 None (initial_state nat)) =
  Thrown (Foreign "createDevEnvironment: bad prefix").
Proof.
  destruct (loadDevEnv_propagates_collaborator_errors nat Scenario.repo_broken_import 5
              (Some {| cwd := None; reload := Some true |}) (Fixture.loaded 7)
              "/repo/dev.config.ts") as (Himport & _);
    [right; reflexivity | reflexivity | discriminate |].
  destruct (loadDevEnv_propagates_collaborator_errors nat Scenario.repo_numeric_prefix 5
              None (initial_state nat) "/repo/dev.config.ts") as (_ & Hfactory);
    [left; reflexivity | reflexivity | discriminate |].
  rewrite (Himport (Foreign "SyntaxError: Unexpected token") eq_refl).
  rewrite (Hfactory [("default", Scenario.numeric_prefix_config)]
             (Foreign "createDevEnvironment: bad prefix") eq_refl eq_refl eq_refl).
  repeat split.
Defined.

(** X7. A reload is not a clear followed by a load.  Both do the same
    search and import and end the same way, and when they return they leave
    the same slot; but when they throw, the reload leaves the old
    environment in the slot, where [getDevEnv] still finds it, while after
    the clear the slot stays empty and [getDevEnv] throws. *)
Theorem reload_versus_clear_then_load :
  forall (Env : Type) (rt : Runtime Env) (fuel : nat) (options : option Options)
         (st : ModuleState Env),
    reload_requested options = true ->
    let reloaded := loadDevEnv rt fuel options st in
    let cleared := loadDevEnv rt fuel options (state_of (clearDevEnvCache st)) in
    outcome_of reloaded = outcome_of cleared /\
    trace_of reloaded = trace_of cleared /\
    (forall env, outcome_of reloaded = Returned env ->
                 state_of reloaded = state_of cleared) /\
    (forall e, outcome_of reloaded = Thrown e ->
               getDevEnv (state_of reloaded) = getDevEnv st /\
               getDevEnv (state_of cleared) =
               (Thrown (Error not_loaded_message), {| cachedEnv := None |}, [])).
Proof.
  intros Env rt fuel options st Hr reloaded cleared.
  destruct (loadDevEnv_uncached_any_state rt fuel options st (state_of (clearDevEnvCache st))
              (or_intror Hr) (or_intror Hr)) as [Ho Ht].
  fold reloaded in Ho, Ht. fold cleared in Ho, Ht.
  split; [exact Ho|]. split; [exact Ht|].
  pose proof (loadDevEnv_state rt fuel options st) as Hst. fold reloaded in Hst.
  pose proof (loadDevEnv_state rt fuel options (state_of (clearDevEnvCache st))) as Hst'.
  fold cleared in Hst'. rewrite <- Ho in Hst'.
  split.
  - intros env Hret. rewrite Hret in Hst, Hst'.
    destruct (state_of reloaded) as [slot], (state_of cleared) as [slot'].
    cbn [cachedEnv] in Hst, Hst'. now rewrite Hst, Hst'.
  - intros e Hthrown. rewrite Hthrown in Hst, Hst'.
    rewrite Hst, Hst'. split; reflexivity.
Qed.

Lemma reload_versus_clear_then_load_witness :
  getDevEnv (state_of (loadDevEnv Fixture.bare 5
                         (Some {| cwd := None; reload := Some true |}) (Fixture.loaded 7))) =
  getDevEnv (Fixture.loaded 7) /\
  getDevEnv (state_of (loadDevEnv Fixture.bare 5
                         (Some {| cwd := None; reload := Some true |})
                         (state_of (clearDevEnvCache (Fixture.loaded 7))))) =
  (Thrown (Error not_loaded_message), {| cachedEnv := None |}, []).
Proof.
  destruct (reload_versus_clear_then_load nat Fixture.bare 5
              (Some {| cwd := None; reload := Some true |}) (Fixture.loaded 7) eq_refl)
    as (_ & _ & _ & Hthrown).
  apply (Hthrown (Error no_config_message)). reflexivity.
Defined.



(** X9. The whole of a successful load.  When the cache does not answer,
    the nearest directory with a candidate is [k] levels up, [file] is the
    first name present there, the module at that path imports, its default
    export passes the check and the factory returns [env], then
    [loadDevEnv] returns [env], the slot holds [env], [getDevEnv] returns
    [env], and the effects are exactly: the existence checks of the search,
    one import, one factory call. *)
Theorem loadDevEnv_loads_nearest_config :
  forall (Env : Type) (rt : Runtime Env) (fuel : nat) (options : option Options)
         (st : ModuleState Env) (k i : nat) (file : string) (exports : JsModule)
         (env : Env),
    cachedEnv st = None \/ reload_requested options = true ->
    (forall j, j < k -> has_config rt (ancestor rt j (start_dir rt options)) = false) ->
    first_present rt (ancestor rt k (start_dir rt options)) CONFIG_FILES i file ->
    k < fuel ->
    join rt (ancestor rt k (start_dir rt options)) file <> "" ->
    import rt (join rt (ancestor rt k (start_dir rt options)) file) = inr exports ->
    passes_validation (mod_default exports) = true ->
    createDevEnvironment rt (mod_default exports) = inr env ->
    loadDevEnv rt fuel options st =
    (Returned env, {| cachedEnv := Some env |},
     (checks_upto rt k (start_dir rt options)
        ++ checks rt (ancestor rt k (start_dir rt options)) (firstn (S i) CONFIG_FILES))
       ++ [EvImport (join rt (ancestor rt k (start_dir rt options)) file);
           EvCreateDevEnvironment (mod_default exports)]) /\
    getDevEnv (state_of (loadDevEnv rt fuel options st)) =
    (Returned env, {| cachedEnv := Some env |}, []).
Proof.
  intros Env rt fuel options st k i file exports env
         Hun Hnone Hfirst Hfuel Hne Him Hpass Hcreate.
  assert (Hrun : loadDevEnv rt fuel options st =
    (Returned env, {| cachedEnv := Some env |},
     (checks_upto rt k (start_dir rt options)
        ++ checks rt (ancestor rt k (start_dir rt options)) (firstn (S i) CONFIG_FILES))
       ++ [EvImport (join rt (ancestor rt k (start_dir rt options)) file);
           EvCreateDevEnvironment (mod_default exports)])).
  { rewrite (loadDevEnv_uncached rt fuel options st Hun). cbv zeta.
    rewrite (findConfigFile_finds rt k i file fuel _ st Hnone Hfirst Hfuel).
    cbn [outcome_of trace_of fst snd].
    rewrite (proj2 (String.eqb_neq _ _) Hne).
    unfold load_from. rewrite Him. cbv zeta. rewrite Hpass, Hcreate. reflexivity. }
  split; [exact Hrun|]. rewrite Hrun. reflexivity.
Qed.

Lemma loadDevEnv_loads_nearest_config_witness :
  getDevEnv (state_of (loadDevEnv Scenario.monorepo 5 None (initial_state nat))) =
  (Returned 3, {| cachedEnv := Some 3 |}, []).
Proof.
  apply (loadDevEnv_loads_nearest_config nat Scenario.monorepo 5 None (initial_state nat)
           2 3 "dev-tools.config.js" [("default", Fixture.good_config)] 3).
  - left. reflexivity.
  - intros [|[|j]] Hj; [reflexivity | reflexivity | lia].
  - split; [reflexivity|]. split; [reflexivity|].
    intros [|[|[|i']]] file' Hlt Hnth; try lia; injection Hnth as <-; reflexivity.
  - lia.
  - discriminate.
  - reflexivity.
  - reflexivity.
  - reflexivity.
Defined.
